(** * BeePolytopeGuard: hazard index, region classification, actuation limits

    A shallow embedding of [EcoNet::BeePolytopeGuard]
    (qpudatashards/particles/include/BeePolytopeGuard.hpp).

    The C++ code computes on [double].  The embedding is written once over
    an interface [Double] that lists the constants and operations the
    header uses, and is instantiated twice:

    - [Q_Double]: exact rational arithmetic.  Every finite double is a
      rational; rounding, overflow, infinities and NaN are outside this
      instance.  A statement made at this instance is a statement about
      exact arithmetic, and is marked so where binary64 can depart from
      it.
    - [F64_Double]: IEEE 754 binary64 (primitive floats), used to replay
      concrete inputs with the arithmetic the compiled code performs, and
      for the behaviour on NaN and on division by zero.

    Properties that only depend on the branching structure are proved for
    every instance. *)

From Stdlib Require Import List Bool Arith Lia.
From Stdlib Require Import QArith Qminmax Lqa.
From Stdlib Require Import Floats.
Import ListNotations.

Set Implicit Arguments.

(** ** The numeric interface *)

Declare Scope dbl_scope.
Delimit Scope dbl_scope with dbl.

Class Double (D : Type) : Type := {
  d_zero : D;                 (* 0.0  *)
  d_one  : D;                 (* 1.0  *)
  d_half : D;                 (* 0.5  *)
  d_eps  : D;                 (* 1e-9 *)
  d_add  : D -> D -> D;
  d_sub  : D -> D -> D;
  d_mul  : D -> D -> D;
  d_div  : D -> D -> D;
  d_ltb  : D -> D -> bool;    (* x <  y *)
  d_leb  : D -> D -> bool     (* x <= y *)
}.

Infix "+" := d_add : dbl_scope.
Infix "-" := d_sub : dbl_scope.
Infix "*" := d_mul : dbl_scope.
Infix "/" := d_div : dbl_scope.
Infix "<?" := d_ltb (at level 70) : dbl_scope.
Infix "<=?" := d_leb (at level 70) : dbl_scope.
Notation "x >? y" := (d_ltb y x) (at level 70) : dbl_scope.
Notation "x >=? y" := (d_leb y x) (at level 70) : dbl_scope.

(** Exact rationals.  [Qdiv x 0] is [0]; the header guards every division
    by an LC50 with [lc50 > 0.0], and the one unguarded division,
    [r_bee / rBeeHardLimit_], is only relied upon below where the divisor
    is shown to be positive. *)
Definition Qltb (x y : Q) : bool :=
  match Qcompare x y with Lt => true | _ => false end.

#[global] Instance Q_Double : Double Q := {
  d_zero := 0%Q;
  d_one  := 1%Q;
  d_half := (1 # 2)%Q;
  d_eps  := (1 # 1000000000)%Q;
  d_add  := Qplus;
  d_sub  := Qminus;
  d_mul  := Qmult;
  d_div  := Qdiv;
  d_ltb  := Qltb;
  d_leb  := Qle_bool
}.

(** IEEE 754 binary64. *)
#[global] Instance F64_Double : Double PrimFloat.float := {
  d_zero := 0%float;
  d_one  := 1%float;
  d_half := 0.5%float;
  d_eps  := 0x1.12e0be826d695p-30%float;  (* the double nearest 1e-9 *)
  d_add  := PrimFloat.add;
  d_sub  := PrimFloat.sub;
  d_mul  := PrimFloat.mul;
  d_div  := PrimFloat.div;
  d_ltb  := PrimFloat.ltb;
  d_leb  := PrimFloat.leb
}.

(** ** Data model *)

Inductive RegionClass : Type :=
  | FORAGE_SAFE
  | RETREAT_ONLY
  | FORBIDDEN.

Definition RegionClass_eqb (r1 r2 : RegionClass) : bool :=
  match r1, r2 with
  | FORAGE_SAFE, FORAGE_SAFE => true
  | RETREAT_ONLY, RETREAT_ONLY => true
  | FORBIDDEN, FORBIDDEN => true
  | _, _ => false
  end.

Section Engine.

Context {D : Type} {num : Double D}.
Local Open Scope dbl_scope.

Record State5D : Type := mkState5D {
  pm25_ug_m3   : D;
  nox_ppb      : D;
  o3_ppb       : D;
  temp_C       : D;
  floral_m2_ha : D
}.

Record BeeHazardParams : Type := mkBeeHazardParams {
  lc50_pm25_ug_m3 : D;
  lc50_nox_ppb    : D;
  lc50_o3_ppb     : D;
  lc50_voc_ug_m3  : D;
  w_pm25 : D;
  w_nox  : D;
  w_o3   : D;
  w_voc  : D;
  pm25_eq_viability_ug_m3 : D
}.

Record BeeHazardState : Type := mkBeeHazardState {
  r_bee            : D;
  pm25_eq          : D;
  within_viability : bool
}.

(** [std::array<double, 5>] *)
Record array5 : Type := mkArray5 { e0 : D; e1 : D; e2 : D; e3 : D; e4 : D }.

Definition get5 (a : array5) (j : nat) : D :=
  match j with
  | 0%nat => e0 a
  | 1%nat => e1 a
  | 2%nat => e2 a
  | 3%nat => e3 a
  | _ => e4 a
  end.

(** [{x in R^5 | A x <= b}]: the rows and the bounds are two separate
    vectors, and nothing ties their lengths together. *)
Record Polytope : Type := mkPolytope {
  A : list array5;
  b : list D
}.

Record BeeActuationLimits : Type := mkBeeActuationLimits {
  region         : RegionClass;
  duty_scale     : D;
  allow_foraging : bool
}.

Record BeePolytopeGuard : Type := mkBeePolytopeGuard {
  params_        : BeeHazardParams;
  foragePoly_    : Polytope;
  retreatPoly_   : Polytope;
  rBeeSoftLimit_ : D;
  rBeeHardLimit_ : D
}.

(** ** Operations *)

(** [std::max(a, b)] is [(a < b) ? b : a]. *)
Definition d_max (x y : D) : D := if x <? y then y else x.

(** The four guarded ratios of [computeHazard]. *)
Definition r_pm (g : BeePolytopeGuard) (s : State5D) : D :=
  if lc50_pm25_ug_m3 (params_ g) >? d_zero
  then pm25_ug_m3 s / lc50_pm25_ug_m3 (params_ g) else d_zero.

Definition r_nox (g : BeePolytopeGuard) (s : State5D) : D :=
  if lc50_nox_ppb (params_ g) >? d_zero
  then nox_ppb s / lc50_nox_ppb (params_ g) else d_zero.

Definition r_o3 (g : BeePolytopeGuard) (s : State5D) : D :=
  if lc50_o3_ppb (params_ g) >? d_zero
  then o3_ppb s / lc50_o3_ppb (params_ g) else d_zero.

Definition r_voc (g : BeePolytopeGuard) (voc_ug_m3 : D) : D :=
  if lc50_voc_ug_m3 (params_ g) >? d_zero
  then voc_ug_m3 / lc50_voc_ug_m3 (params_ g) else d_zero.

Definition computeHazard (g : BeePolytopeGuard) (s : State5D)
    (voc_ug_m3 : D) : BeeHazardState :=
  let p := params_ g in
  let h_r_bee :=
    w_pm25 p * r_pm g s + w_nox p * r_nox g s + w_o3 p * r_o3 g s
    + w_voc p * r_voc g voc_ug_m3 in
  let h_pm25_eq :=
    pm25_ug_m3 s + w_nox p * nox_ppb s + w_o3 p * o3_ppb s
    + w_voc p * voc_ug_m3 in
  {| r_bee := h_r_bee;
     pm25_eq := h_pm25_eq;
     within_viability :=
       (h_pm25_eq <=? pm25_eq_viability_ug_m3 p)
       && (h_r_bee <=? rBeeSoftLimit_ g) |}.

(** The inner loop of [inPolytope]: [dot] starts at [0.0] and
    accumulates [row[j] * x[j]] for [j = 0 .. 4]. *)
Definition dot (row x : array5) : D :=
  fold_left (fun acc j => acc + get5 row j * get5 x j) (seq 0 5) d_zero.

(** The outer loop of [inPolytope], at index [i] with [rows] the rows
    [P.A[i ..]] still to visit.  [P.b[i]] is an unchecked
    [std::vector] access: reading past the end of [b] is undefined
    behaviour, modelled as [None]. *)
Fixpoint inPolytope_from (P : Polytope) (x : array5)
    (rows : list array5) (i : nat) : option bool :=
  match rows with
  | [] => Some true
  | row :: rest =>
      match nth_error (b P) i with
      | None => None
      | Some bi =>
          if dot row x >? bi + d_eps then Some false
          else inPolytope_from P x rest (S i)
      end
  end.

Definition state_vec (s : State5D) : array5 :=
  mkArray5 (pm25_ug_m3 s) (nox_ppb s) (o3_ppb s) (temp_C s)
           (floral_m2_ha s).

Definition inPolytope (P : Polytope) (s : State5D) : option bool :=
  inPolytope_from P (state_vec s) (A P) 0.

Definition classifyRegion (g : BeePolytopeGuard) (s : State5D)
    : option RegionClass :=
  match inPolytope (foragePoly_ g) s with
  | None => None
  | Some true => Some FORAGE_SAFE
  | Some false =>
      match inPolytope (retreatPoly_ g) s with
      | None => None
      | Some true => Some RETREAT_ONLY
      | Some false => Some FORBIDDEN
      end
  end.

Definition computeActuation (g : BeePolytopeGuard) (s : State5D)
    (voc_ug_m3 : D) : option BeeActuationLimits :=
  let hz := computeHazard g s voc_ug_m3 in
  match classifyRegion g s with
  | None => None
  | Some rg =>
      if RegionClass_eqb rg FORBIDDEN || (r_bee hz >=? rBeeHardLimit_ g)
      then Some {| region := rg; duty_scale := d_zero;
                   allow_foraging := false |}
      else if RegionClass_eqb rg RETREAT_ONLY
              || (r_bee hz >? rBeeSoftLimit_ g)
      then
        let alpha :=
          d_max d_zero (d_one - r_bee hz / rBeeHardLimit_ g) in
        Some {| region := rg; duty_scale := alpha * d_half;
                allow_foraging := false |}
      else Some {| region := rg; duty_scale := d_one;
                   allow_foraging := true |}
  end.

(** A polytope whose bounds vector covers every row: the condition under
    which [inPolytope] never reads [b] out of range. *)
Definition Polytope_wf (P : Polytope) : Prop :=
  (length (A P) <= length (b P))%nat.

Definition guard_wf (g : BeePolytopeGuard) : Prop :=
  Polytope_wf (foragePoly_ g) /\ Polytope_wf (retreatPoly_ g).

End Engine.

Arguments State5D D : clear implicits.
Arguments BeeHazardParams D : clear implicits.
Arguments BeeHazardState D : clear implicits.
Arguments array5 D : clear implicits.
Arguments Polytope D : clear implicits.
Arguments BeeActuationLimits D : clear implicits.
Arguments BeePolytopeGuard D : clear implicits.

(** ** The membership test as the specification words it

    A point satisfies a polytope iff, for every half-space row [i],
    [row_i . x <= bound_i + 1e-9].  Stated over exact rationals, to be
    compared with [inPolytope] and [classifyRegion]. *)

Definition row_dot_x (row x : array5 Q) : Q :=
  (e0 row * e0 x + e1 row * e1 x + e2 row * e2 x + e3 row * e3 x
   + e4 row * e4 x)%Q.

Definition satisfies (P : Polytope Q) (s : State5D Q) : Prop :=
  forall (i : nat) (row : array5 Q) (bound : Q),
    nth_error (A P) i = Some row ->
    nth_error (b P) i = Some bound ->
    (row_dot_x row (state_vec s) <= bound + (1 # 1000000000))%Q.

(** The membership test as the loop performs it, for any arithmetic: no
    row [i] makes [dot > P.b[i] + 1e-9] true, with [dot] the accumulated
    sum the code computes.  In binary64 a dot product that is NaN, or that
    rounding has brought down to the bound, passes. *)
Definition passes {D : Type} {num : Double D} (P : Polytope D)
    (s : State5D D) : Prop :=
  forall (i : nat) (row : array5 D) (bi : D),
    nth_error (A P) i = Some row ->
    nth_error (b P) i = Some bi ->
    d_ltb (d_add bi d_eps) (dot row (state_vec s)) = false.

(** Replacing one reading of a state, the others held fixed. *)
Definition with_pm25 {D : Type} (s : State5D D) (v : D) : State5D D :=
  mkState5D v (nox_ppb s) (o3_ppb s) (temp_C s) (floral_m2_ha s).

Definition with_nox {D : Type} (s : State5D D) (v : D) : State5D D :=
  mkState5D (pm25_ug_m3 s) v (o3_ppb s) (temp_C s) (floral_m2_ha s).

Definition with_o3 {D : Type} (s : State5D D) (v : D) : State5D D :=
  mkState5D (pm25_ug_m3 s) (nox_ppb s) v (temp_C s) (floral_m2_ha s).

(** ** Operations on inputs and configurations used to state properties *)

(** The point [t * s1 + (1 - t) * s2] of the segment between two states. *)
Definition mix (t : Q) (s1 s2 : State5D Q) : State5D Q :=
  mkState5D (t * pm25_ug_m3 s1 + (1 - t) * pm25_ug_m3 s2)%Q
            (t * nox_ppb s1 + (1 - t) * nox_ppb s2)%Q
            (t * o3_ppb s1 + (1 - t) * o3_ppb s2)%Q
            (t * temp_C s1 + (1 - t) * temp_C s2)%Q
            (t * floral_m2_ha s1 + (1 - t) * floral_m2_ha s2)%Q.

(** The three pollutant readings of a state expressed in other units: each
    is multiplied by its own conversion factor. *)
Definition convert_readings (k_pm k_nox k_o3 : Q) (s : State5D Q)
    : State5D Q :=
  mkState5D (k_pm * pm25_ug_m3 s)%Q (k_nox * nox_ppb s)%Q
            (k_o3 * o3_ppb s)%Q (temp_C s) (floral_m2_ha s).

(** The same conversion applied to the four LC50 values of a guard. *)
Definition convert_lc50 (k_pm k_nox k_o3 k_voc : Q) (g : BeePolytopeGuard Q)
    : BeePolytopeGuard Q :=
  let p := params_ g in
  mkBeePolytopeGuard
    (mkBeeHazardParams (k_pm * lc50_pm25_ug_m3 p)%Q
                       (k_nox * lc50_nox_ppb p)%Q
                       (k_o3 * lc50_o3_ppb p)%Q
                       (k_voc * lc50_voc_ug_m3 p)%Q
                       (w_pm25 p) (w_nox p) (w_o3 p) (w_voc p)
                       (pm25_eq_viability_ug_m3 p))
    (foragePoly_ g) (retreatPoly_ g) (rBeeSoftLimit_ g) (rBeeHardLimit_ g).

(** Two constraint lists put one after the other: the intersection of the
    two polytopes when the first has as many bounds as rows. *)
Definition poly_app {D : Type} (P1 P2 : Polytope D) : Polytope D :=
  mkPolytope (A P1 ++ A P2) (b P1 ++ b P2).

(** Every reading of the call is non-negative. *)
Definition readings_nonneg (s : State5D Q) (voc : Q) : Prop :=
  (0 <= pm25_ug_m3 s /\ 0 <= nox_ppb s /\ 0 <= o3_ppb s /\ 0 <= voc)%Q.

(** Every mixture weight of the guard is non-negative. *)
Definition weights_nonneg (g : BeePolytopeGuard Q) : Prop :=
  (0 <= w_pm25 (params_ g) /\ 0 <= w_nox (params_ g)
   /\ 0 <= w_o3 (params_ g) /\ 0 <= w_voc (params_ g))%Q.

(** The weights form a convex mixture: non-negative, summing to one. *)
Definition weights_convex (g : BeePolytopeGuard Q) : Prop :=
  weights_nonneg g
  /\ (w_pm25 (params_ g) + w_nox (params_ g) + w_o3 (params_ g)
      + w_voc (params_ g) == 1)%Q.

(** Some field of a binary64 state is NaN. *)
Definition has_nan (s : State5D float) : bool :=
  is_nan (pm25_ug_m3 s) || is_nan (nox_ppb s) || is_nan (o3_ppb s)
  || is_nan (temp_C s) || is_nan (floral_m2_ha s).

(** Some pollutant reading of a binary64 state is NaN while the LC50 of its
    channel is positive, so that the channel's ratio is computed. *)
Definition nan_pollutant (g : BeePolytopeGuard float) (s : State5D float)
    : bool :=
  (is_nan (pm25_ug_m3 s) && (0 <? lc50_pm25_ug_m3 (params_ g))%float)
  || (is_nan (nox_ppb s) && (0 <? lc50_nox_ppb (params_ g))%float)
  || (is_nan (o3_ppb s) && (0 <? lc50_o3_ppb (params_ g))%float).

(** The rational number a finite binary64 value stands for, in lowest
    terms; [None] for infinities and NaN. *)
Definition exact_value (x : float) : option Q :=
  match Prim2SF x with
  | S754_zero _ => Some 0%Q
  | S754_finite sign m e =>
      Some (Qred ((if sign then - (1) else 1) * (Zpos m # 1) * 2 ^ e)%Q)
  | S754_infinity _ => None
  | S754_nan => None
  end.

Definition exact_array5 (a : array5 float) : option (array5 Q) :=
  match exact_value (e0 a), exact_value (e1 a), exact_value (e2 a),
        exact_value (e3 a), exact_value (e4 a) with
  | Some q0, Some q1, Some q2, Some q3, Some q4 =>
      Some (mkArray5 q0 q1 q2 q3 q4)
  | _, _, _, _, _ => None
  end.

(** ** Sample configurations *)

Module Samples.

(** The end-to-end scenario: LC50 {12, 100, 70, 500}, weights
    {0.4, 0.2, 0.2, 0.2}, viability 8.5, soft 0.6, hard 1.0, both
    polytopes empty, state {5, 20, 10, 25, 10}, VOC 50. *)
Definition scenario_params : BeeHazardParams Q :=
  mkBeeHazardParams 12 100 70 500 (2 # 5) (1 # 5) (1 # 5) (1 # 5) (17 # 2).

Definition scenario_guard : BeePolytopeGuard Q :=
  mkBeePolytopeGuard scenario_params (mkPolytope [] []) (mkPolytope [] [])
                     (3 # 5) 1.

Definition scenario_state : State5D Q := mkState5D 5 20 10 25 10.

(** A configuration whose numbers are all exact in binary64: LC50
    {16, 128, 64, 512}, weights {1/4, 1/4, 1/4, 1/4}, viability 8.5,
    soft 0.5, hard 1.0.  Foraging is allowed up to 32 degrees C, retreat up
    to 40 degrees C, each as one half-space on the temperature axis. *)
Definition thermal_params : BeeHazardParams Q :=
  mkBeeHazardParams 16 128 64 512 (1 # 4) (1 # 4) (1 # 4) (1 # 4) (17 # 2).

Definition temp_row : array5 Q := mkArray5 0 0 0 1 0.

Definition thermal_guard : BeePolytopeGuard Q :=
  mkBeePolytopeGuard thermal_params
                     (mkPolytope [temp_row] [32])
                     (mkPolytope [temp_row] [40])
                     (1 # 2) 1.

(** The same, with no constraint on the retreat region. *)
Definition open_retreat_guard : BeePolytopeGuard Q :=
  mkBeePolytopeGuard thermal_params
                     (mkPolytope [temp_row] [32])
                     (mkPolytope [] [])
                     (1 # 2) 1.

Definition mild_state : State5D Q := mkState5D 4 16 8 25 10.
Definition hot_state : State5D Q := mkState5D 0 0 0 36 10.
Definition scorching_state : State5D Q := mkState5D 0 0 0 45 10.

(** A hot day with a NOx sensor that has drifted below its zero point. *)
Definition drift_state : State5D Q := mkState5D 0 (-8) 0 36 10.
Definition deep_drift_state : State5D Q := mkState5D 0 (-1024) 0 36 10.

(** PM2.5 and VOC switched off by a zero and a negative LC50. *)
Definition gas_only_guard : BeePolytopeGuard Q :=
  mkBeePolytopeGuard
    (mkBeeHazardParams 0 128 64 (-1) (1 # 4) (1 # 4) (1 # 4) (1 # 4)
                       (17 # 2))
    (mkPolytope [] []) (mkPolytope [] []) (1 # 2) 1.

Definition dusty_state : State5D Q := mkState5D 1000 16 8 25 10.

(** Limits in the wrong order: hard 0.5 below soft 1.0. *)
Definition misordered_guard : BeePolytopeGuard Q :=
  mkBeePolytopeGuard thermal_params (mkPolytope [] []) (mkPolytope [] [])
                     1 (1 # 2).

(** A polytope with a row and no bound for it. *)
Definition ragged_poly : Polytope Q := mkPolytope [temp_row] [].

(** [thermal_guard] and the drifted readings as binary64 values. *)
Definition thermal_params_f64 : BeeHazardParams float :=
  mkBeeHazardParams 16%float 128%float 64%float 512%float
                    0.25%float 0.25%float 0.25%float 0.25%float 8.5%float.

Definition temp_row_f64 : array5 float :=
  mkArray5 0%float 0%float 0%float 1%float 0%float.

Definition thermal_guard_f64 : BeePolytopeGuard float :=
  mkBeePolytopeGuard thermal_params_f64
                     (mkPolytope [temp_row_f64] [32%float])
                     (mkPolytope [temp_row_f64] [40%float])
                     0.5%float 1%float.

Definition drift_state_f64 : State5D float :=
  mkState5D 0%float (-8)%float 0%float 36%float 10%float.

Definition deep_drift_state_f64 : State5D float :=
  mkState5D 0%float (-1024)%float 0%float 36%float 10%float.

(** [thermal_guard_f64] with the hard limit set to zero. *)
Definition zero_hard_guard_f64 : BeePolytopeGuard float :=
  mkBeePolytopeGuard thermal_params_f64
                     (mkPolytope [temp_row_f64] [32%float])
                     (mkPolytope [temp_row_f64] [40%float])
                     0.5%float 0%float.

(** A state whose NOx reading is NaN. *)
Definition nan_state_f64 : State5D float :=
  mkState5D 4%float nan 8%float 45%float 10%float.

(** A half-space whose dot product cancels badly in binary64:
    [2^60 * x0 + x1 - 2^60 * x2 <= 0.5].  At the point (1, 1, 1, 0, 0) the
    exact dot product is 1; the accumulated binary64 sum is 0, because
    [2^60 + 1] rounds to [2^60]. *)
Definition cancel_row_f64 : array5 float :=
  mkArray5 0x1p60%float 1%float (- 0x1p60)%float 0%float 0%float.

Definition cancel_guard_f64 : BeePolytopeGuard float :=
  mkBeePolytopeGuard thermal_params_f64
                     (mkPolytope [cancel_row_f64] [0.5%float])
                     (mkPolytope [] [])
                     0.5%float 1%float.

Definition cancel_state_f64 : State5D float :=
  mkState5D 1%float 1%float 1%float 0%float 0%float.

(** The same half-space and point as exact rationals. *)
Definition cancel_row : array5 Q :=
  mkArray5 1152921504606846976 1 (- (1152921504606846976)) 0 0.

Definition cancel_poly : Polytope Q := mkPolytope [cancel_row] [1 # 2].

Definition cancel_state : State5D Q := mkState5D 1 1 1 0 0.

(** The largest finite double. *)
Definition dbl_max : float := 0x1.fffffffffffffp+1023%float.

(** [thermal_guard_f64] with the VOC channel weighted zero and a VOC LC50
    of 0.5. *)
Definition overflow_guard_f64 : BeePolytopeGuard float :=
  mkBeePolytopeGuard
    (mkBeeHazardParams 16%float 128%float 64%float 0.5%float
                       0.25%float 0.25%float 0.25%float 0%float 8.5%float)
    (mkPolytope [temp_row_f64] [32%float])
    (mkPolytope [temp_row_f64] [40%float])
    0.5%float 1%float.

Definition heavy_state_f64 : State5D float :=
  mkState5D 80%float 0%float 0%float 25%float 10%float.

Definition light_state_f64 : State5D float :=
  mkState5D 2%float 8%float 4%float 25%float 10%float.

(** The double nearest 1.3, and a guard with unit LC50s and weights
    3/8, 3/8, 1/8, 1/8. *)
Definition near_1_3 : float := 0x1.4cccccccccccdp+0%float.

Definition rounding_guard_f64 : BeePolytopeGuard float :=
  mkBeePolytopeGuard
    (mkBeeHazardParams 1%float 1%float 1%float 1%float
                       0.375%float 0.375%float 0.125%float 0.125%float
                       8.5%float)
    (mkPolytope [] []) (mkPolytope [] [])
    0.5%float 1%float.

Definition rounding_state_f64 : State5D float :=
  mkState5D near_1_3 near_1_3 near_1_3 25%float 10%float.

End Samples.

Unset Implicit Arguments.

(** ** Comparisons of the rational instance *)

Lemma Qltb_true_iff (x y : Q) : Qltb x y = true <-> (x < y)%Q.
Proof.
  unfold Qltb. rewrite Qlt_alt.
  destruct (x ?= y)%Q; split; intros H; try reflexivity; discriminate H.
Qed.

Lemma Qltb_false_iff (x y : Q) : Qltb x y = false <-> (y <= x)%Q.
Proof.
  rewrite <- not_true_iff_false, Qltb_true_iff.
  split; [apply Qnot_lt_le | apply Qle_not_lt].
Qed.

Lemma Qle_bool_false_iff (x y : Q) : Qle_bool x y = false <-> (y < x)%Q.
Proof.
  rewrite <- not_true_iff_false, Qle_bool_iff.
  split; [apply Qnot_le_lt | apply Qlt_not_le].
Qed.

(** Turns the boolean tests of the rational instance into order facts. *)
Ltac q_tests :=
  repeat match goal with
  | H : Qltb _ _ = true |- _ => apply Qltb_true_iff in H
  | H : Qltb _ _ = false |- _ => apply Qltb_false_iff in H
  | H : Qle_bool _ _ = true |- _ => apply Qle_bool_iff in H
  | H : Qle_bool _ _ = false |- _ => apply Qle_bool_false_iff in H
  end.

(** Evaluates the left-hand side of [H : classifyRegion g s = Some (region
    lim)] on a concrete guard and state, leaving [H : region lim = _]. *)
Ltac eval_region H :=
  match type of H with
  | ?c = Some (region ?lim) =>
      let v := eval vm_compute in c in
      change c with v in H; injection H as H; symmetry in H
  end.

(** ** Region classification: structure *)

Section Structure.

Context {D : Type} {num : Double D}.
Local Open Scope dbl_scope.

Lemma inPolytope_from_total (P : Polytope D) (x : array5 D) :
  forall rows i,
    (i + length rows <= length (b P))%nat ->
    exists r, inPolytope_from P x rows i = Some r.
Proof.
  induction rows as [| row rest IH]; intros i Hlen; simpl in *.
  - exists true. reflexivity.
  - destruct (nth_error (b P) i) as [bi |] eqn:Hb.
    + destruct (dot row x >? bi + d_eps).
      * exists false. reflexivity.
      * apply IH. lia.
    + apply nth_error_None in Hb. lia.
Qed.

Lemma inPolytope_total (P : Polytope D) (s : State5D D) :
  Polytope_wf P -> exists r, inPolytope P s = Some r.
Proof.
  intros Hwf. apply inPolytope_from_total. exact Hwf.
Qed.

(** The loop answers [true] exactly when no visited row trips the test
    [dot > P.b[i] + 1e-9]. *)
Lemma inPolytope_from_true_iff (P : Polytope D) (x : array5 D) :
  forall rows i,
    (i + length rows <= length (b P))%nat ->
    (inPolytope_from P x rows i = Some true <->
     forall k row bk,
       nth_error rows k = Some row ->
       nth_error (b P) (i + k) = Some bk ->
       (dot row x >? bk + d_eps) = false).
Proof.
  induction rows as [| row rest IH]; intros i Hlen; simpl in *.
  - split; [| reflexivity].
    intros _ k row bk Hk. destruct k; discriminate Hk.
  - destruct (nth_error (b P) i) as [bi |] eqn:Hb.
    + destruct (dot row x >? bi + d_eps) eqn:Htest.
      * split; [discriminate |].
        intros Hall. specialize (Hall 0%nat row bi eq_refl).
        rewrite Nat.add_0_r in Hall. specialize (Hall Hb). congruence.
      * rewrite IH by lia. split.
        -- intros Hall [| k] row' bk Hrow Hbk; simpl in Hrow.
           ++ rewrite Nat.add_0_r in Hbk. congruence.
           ++ apply (Hall k row' bk Hrow).
              rewrite <- Hbk. f_equal. lia.
        -- intros Hall k row' bk Hrow Hbk.
           apply (Hall (S k) row' bk Hrow).
           rewrite <- Hbk. f_equal. lia.
    + apply nth_error_None in Hb. lia.
Qed.

Lemma inPolytope_true_iff_passes (P : Polytope D) (s : State5D D) :
  Polytope_wf P -> (inPolytope P s = Some true <-> passes P s).
Proof.
  intros Hwf. unfold inPolytope, passes.
  rewrite inPolytope_from_true_iff by exact Hwf. reflexivity.
Qed.

Lemma classifyRegion_total (g : BeePolytopeGuard D) (s : State5D D) :
  guard_wf g -> exists rg, classifyRegion g s = Some rg.
Proof.
  intros [Hf Hr]. unfold classifyRegion.
  destruct (inPolytope_total _ s Hf) as [[|] ->].
  - eauto.
  - destruct (inPolytope_total _ s Hr) as [[|] ->]; eauto.
Qed.

(** The region stored in the result is the classified one, and
    [computeActuation] returns whenever [classifyRegion] does. *)
Lemma computeActuation_region (g : BeePolytopeGuard D) (s : State5D D)
    (voc : D) (rg : RegionClass) :
  classifyRegion g s = Some rg ->
  exists lim, computeActuation g s voc = Some lim /\ region lim = rg.
Proof.
  intros Hrg. unfold computeActuation. rewrite Hrg.
  destruct (_ || _); [| destruct (_ || _)]; eexists; split; reflexivity.
Qed.

End Structure.

(** ** Hazard evaluation: arithmetic over the rationals *)

Section HazardQ.

Local Open Scope Q_scope.

(** One guarded ratio [(lc50 > 0.0) ? reading / lc50 : 0.0]. *)
Lemma guarded_ratio_monotone (lc50 lo hi : Q) :
  lo <= hi ->
  (if Qltb 0 lc50 then lo / lc50 else 0)
  <= (if Qltb 0 lc50 then hi / lc50 else 0).
Proof.
  intros Hle. destruct (Qltb 0 lc50) eqn:Hpos.
  - q_tests. unfold Qdiv. apply Qmult_le_compat_r; [exact Hle |].
    apply Qinv_le_0_compat, Qlt_le_weak, Hpos.
  - apply Qle_refl.
Qed.

Lemma weighted_monotone (w x y : Q) : 0 <= w -> x <= y -> w * x <= w * y.
Proof.
  intros Hw Hxy. rewrite (Qmult_comm w x), (Qmult_comm w y).
  apply Qmult_le_compat_r; assumption.
Qed.

(** The risk index is monotone in the four readings taken together. *)
Lemma r_bee_monotone_joint (g : BeePolytopeGuard Q) (s1 s2 : State5D Q)
    (voc1 voc2 : Q) :
  0 <= w_pm25 (params_ g) -> 0 <= w_nox (params_ g) ->
  0 <= w_o3 (params_ g) -> 0 <= w_voc (params_ g) ->
  pm25_ug_m3 s1 <= pm25_ug_m3 s2 ->
  nox_ppb s1 <= nox_ppb s2 ->
  o3_ppb s1 <= o3_ppb s2 ->
  voc1 <= voc2 ->
  r_bee (computeHazard g s1 voc1) <= r_bee (computeHazard g s2 voc2).
Proof.
  intros Wpm Wnox Wo3 Wvoc Hpm Hnox Ho3 Hvoc.
  unfold computeHazard, r_pm, r_nox, r_o3, r_voc. cbn.
  repeat apply Qplus_le_compat;
    apply weighted_monotone; try assumption;
    apply guarded_ratio_monotone; assumption.
Qed.

End HazardQ.

(** ** Region classification over the rationals *)

Section RegionQ.

Local Open Scope Q_scope.

(** The accumulating loop computes the dot product. *)
Lemma dot_row_dot_x (row x : array5 Q) : dot row x == row_dot_x row x.
Proof.
  unfold dot, row_dot_x. cbn. ring.
Qed.

Lemma inPolytope_true_iff_satisfies (P : Polytope Q) (s : State5D Q) :
  Polytope_wf P -> (inPolytope P s = Some true <-> satisfies P s).
Proof.
  intros Hwf. unfold inPolytope, satisfies.
  rewrite inPolytope_from_true_iff by exact Hwf.
  split; intros Hall i row bound Hrow Hb;
    specialize (Hall i row bound Hrow Hb);
    cbn [d_ltb d_add d_eps Q_Double Nat.add] in *.
  - apply Qltb_false_iff in Hall. rewrite <- dot_row_dot_x. exact Hall.
  - apply Qltb_false_iff. rewrite dot_row_dot_x. exact Hall.
Qed.

Lemma inPolytope_false_iff_not_satisfies (P : Polytope Q) (s : State5D Q) :
  Polytope_wf P -> (inPolytope P s = Some false <-> ~ satisfies P s).
Proof.
  intros Hwf. rewrite <- (inPolytope_true_iff_satisfies P s Hwf).
  destruct (inPolytope_total P s Hwf) as [[|] ->]; split; intros H;
    try reflexivity; try discriminate H.
  - exfalso. apply H. reflexivity.
  - intros Habs. discriminate Habs.
Qed.

End RegionQ.

(** ** Actuation: the three tiers *)

Section Tiers.

Context {D : Type} {num : Double D}.
Local Open Scope dbl_scope.

Variables (g : BeePolytopeGuard D) (s : State5D D) (voc : D).
Variable rg : RegionClass.

Local Notation "'risk'" := (r_bee (computeHazard g s voc)).

(** Every call lands in exactly one of the three tiers. *)
Lemma computeActuation_tier_cases :
  (rg = FORBIDDEN \/ (risk >=? rBeeHardLimit_ g) = true)
  \/ (rg <> FORBIDDEN /\ (risk >=? rBeeHardLimit_ g) = false
      /\ (rg = RETREAT_ONLY \/ (risk >? rBeeSoftLimit_ g) = true))
  \/ (rg = FORAGE_SAFE /\ (risk >=? rBeeHardLimit_ g) = false
      /\ (risk >? rBeeSoftLimit_ g) = false).
Proof.
  destruct (risk >=? rBeeHardLimit_ g); [left; right; reflexivity |].
  destruct rg.
  - destruct (risk >? rBeeSoftLimit_ g).
    + right; left. repeat split; [discriminate | right; reflexivity].
    + right; right. repeat split.
  - right; left. repeat split; [discriminate | left; reflexivity].
  - left; left; reflexivity.
Qed.

Hypothesis Hrg : classifyRegion g s = Some rg.

Lemma computeActuation_hard_stop :
  rg = FORBIDDEN \/ (risk >=? rBeeHardLimit_ g) = true ->
  computeActuation g s voc
  = Some {| region := rg; duty_scale := d_zero; allow_foraging := false |}.
Proof.
  intros Hstop. unfold computeActuation. rewrite Hrg.
  replace (_ || _) with true; [reflexivity |].
  symmetry. apply orb_true_iff.
  destruct Hstop as [-> | Hge]; [left; reflexivity | right; exact Hge].
Qed.

Lemma computeActuation_throttled :
  rg <> FORBIDDEN -> (risk >=? rBeeHardLimit_ g) = false ->
  rg = RETREAT_ONLY \/ (risk >? rBeeSoftLimit_ g) = true ->
  computeActuation g s voc
  = Some {| region := rg;
            duty_scale :=
              d_max d_zero (d_one - risk / rBeeHardLimit_ g) * d_half;
            allow_foraging := false |}.
Proof.
  intros Hnf Hlt Hthr. unfold computeActuation. rewrite Hrg.
  rewrite Hlt.
  replace (RegionClass_eqb rg FORBIDDEN) with false
    by (destruct rg; try reflexivity; contradiction Hnf; reflexivity).
  cbn [orb].
  replace (_ || _) with true; [reflexivity |].
  symmetry. apply orb_true_iff.
  destruct Hthr as [-> | Hgt]; [left; reflexivity | right; exact Hgt].
Qed.

Lemma computeActuation_full :
  rg = FORAGE_SAFE -> (risk >=? rBeeHardLimit_ g) = false ->
  (risk >? rBeeSoftLimit_ g) = false ->
  computeActuation g s voc
  = Some {| region := rg; duty_scale := d_one; allow_foraging := true |}.
Proof.
  intros -> Hlt Hle. unfold computeActuation. rewrite Hrg.
  rewrite Hlt, Hle. reflexivity.
Qed.

End Tiers.

(** ** Actuation: the throttled scale over the rationals *)

Section ThrottleQ.

Local Open Scope Q_scope.

(** With [0 <= risk < hard] the clipped ramp [max(0, 1 - risk/hard)] lies
    in [0, 1]; the divisor is then positive. *)
Lemma alpha_bounds (risk hard : Q) :
  0 <= risk -> risk < hard ->
  0 <= d_max 0 (1 - risk / hard)%Q /\ d_max 0 (1 - risk / hard)%Q <= 1.
Proof.
  intros Hnn Hlt.
  assert (Hpos : 0 < hard) by (eapply Qle_lt_trans; eassumption).
  assert (Hdiv : 0 <= risk / hard).
  { apply Qle_shift_div_l; [exact Hpos |]. rewrite Qmult_0_l. exact Hnn. }
  unfold d_max. cbn [d_ltb Q_Double].
  destruct (Qltb 0 (1 - risk / hard)) eqn:Htest; q_tests; split;
    try apply Qle_refl; try discriminate; lra.
Qed.

Lemma half_scale_bounds (alpha : Q) :
  0 <= alpha <= 1 -> 0 <= alpha * (1 # 2) /\ alpha * (1 # 2) <= 1 # 2.
Proof.
  intros [H0 H1]. split; lra.
Qed.

(** For a non-negative risk index the duty scale of every tier lies in
    [0, 1]. *)
Lemma duty_scale_unit_interval_nonneg_risk (g : BeePolytopeGuard Q)
    (s : State5D Q) (voc : Q) :
  guard_wf g ->
  0 <= r_bee (computeHazard g s voc) ->
  exists lim,
    computeActuation g s voc = Some lim
    /\ 0 <= duty_scale lim /\ duty_scale lim <= 1.
Proof.
  intros Hwf Hnn.
  destruct (classifyRegion_total g s Hwf) as [rg Hrg].
  destruct (computeActuation_tier_cases g s voc rg)
    as [Hstop | [(Hnf & Hlt & Hthr) | (Hfs & Hlt & Hle)]].
  - rewrite (computeActuation_hard_stop g s voc rg Hrg Hstop).
    eexists; split; [reflexivity |]. cbn. split; discriminate.
  - rewrite (computeActuation_throttled g s voc rg Hrg Hnf Hlt Hthr).
    eexists; split; [reflexivity |].
    cbn [duty_scale d_mul d_half d_zero d_one d_sub d_div Q_Double].
    cbn [d_leb Q_Double] in Hlt. q_tests.
    destruct (alpha_bounds _ _ Hnn Hlt) as [Ha0 Ha1].
    destruct (half_scale_bounds _ (conj Ha0 Ha1)) as [Hd0 Hd1].
    split; [exact Hd0 |]. eapply Qle_trans; [exact Hd1 | discriminate].
  - rewrite (computeActuation_full g s voc rg Hrg Hfs Hlt Hle).
    eexists; split; [reflexivity |]. cbn. split; discriminate.
Qed.

End ThrottleQ.
(** ** Worked inputs *)

(** The end-to-end scenario: risk 0.2552..., forage-safe through the empty
    polytope, full duty. *)
Example scenario_runs :
  computeActuation Samples.scenario_guard Samples.scenario_state 50%Q
  = Some {| region := FORAGE_SAFE; duty_scale := 1%Q;
            allow_foraging := true |}
  /\ (r_bee (computeHazard Samples.scenario_guard Samples.scenario_state
                           50%Q) == 268 # 1050)%Q.
Proof. split; reflexivity. Qed.

(** A point exactly on the bounding hyperplane is a member, and so is one
    within the tolerance; one beyond it is not. *)
Example boundary_point_is_member :
  classifyRegion Samples.thermal_guard (mkState5D 0 0 0 32 10)%Q
  = Some FORAGE_SAFE
  /\ classifyRegion Samples.thermal_guard
       (mkState5D 0 0 0 (32 + (1 # 1000000000)) 10)%Q
     = Some FORAGE_SAFE
  /\ classifyRegion Samples.thermal_guard
       (mkState5D 0 0 0 (32 + (2 # 1000000000)) 10)%Q
     = Some RETREAT_ONLY.
Proof. repeat split; vm_compute; reflexivity. Qed.

(** A row without a bound: the test reads [P.b[0]] out of range. *)
Example ragged_polytope_reads_out_of_range :
  ~ Polytope_wf Samples.ragged_poly
  /\ inPolytope Samples.ragged_poly Samples.hot_state = None.
Proof. split; [cbv; lia | reflexivity]. Qed.

(** Retreat-only with zero risk: exactly half duty. *)
Example throttled_ceiling_at_zero_risk :
  exists lim,
    computeActuation Samples.thermal_guard Samples.hot_state 0%Q = Some lim
    /\ region lim = RETREAT_ONLY
    /\ (duty_scale lim == 1 # 2)%Q.
Proof.
  eexists. split; [vm_compute; reflexivity |]. split; reflexivity.
Qed.

(** ** Hazard evaluation *)

(** C10. [computeHazard] never reads [temp_C] or [floral_m2_ha]: two states
    with the same PM2.5, NOx and O3 readings, whatever their temperature and
    floral density, give the same [BeeHazardState] (risk index,
    PM2.5-equivalent and viability flag) for the same VOC reading and the
    same guard.  This holds for every instance of the arithmetic. *)
Theorem computeHazard_ignores_temp_floral :
  forall (D : Type) (num : Double D) (g : BeePolytopeGuard D)
         (pm nox o3 voc temp1 floral1 temp2 floral2 : D),
    computeHazard g (mkState5D pm nox o3 temp1 floral1) voc
    = computeHazard g (mkState5D pm nox o3 temp2 floral2) voc.
Proof.
  intros. reflexivity.
Qed.

(** C7. The viability flag returned by [computeHazard] is true if and only
    if the PM2.5-equivalent index is at most the configured viability
    threshold and the risk index is at most the guard's soft risk limit. *)
Theorem within_viability_iff :
  forall (g : BeePolytopeGuard Q) (s : State5D Q) (voc : Q),
    within_viability (computeHazard g s voc) = true <->
    (pm25_eq (computeHazard g s voc)
       <= pm25_eq_viability_ug_m3 (params_ g)
     /\ r_bee (computeHazard g s voc) <= rBeeSoftLimit_ g)%Q.
Proof.
  intros g s voc. cbn [within_viability computeHazard].
  rewrite andb_true_iff. cbn [d_leb Q_Double].
  rewrite !Qle_bool_iff. reflexivity.
Qed.

(** C6. For each of the four channels (PM2.5, NOx, O3, VOC): when the
    configured LC50 of the channel is zero or negative, the channel's ratio
    is exactly [0] for every reading, its weighted term is zero, and the
    risk index is the sum of the other three weighted terms. *)
Theorem nonpositive_lc50_silences_channel :
  forall (g : BeePolytopeGuard Q),
    let p := params_ g in
    ((lc50_pm25_ug_m3 p <= 0)%Q ->
     forall (s : State5D Q) (voc : Q),
       r_pm g s = 0%Q /\ (w_pm25 p * r_pm g s == 0)%Q /\
       (r_bee (computeHazard g s voc)
        == w_nox p * r_nox g s + w_o3 p * r_o3 g s
           + w_voc p * r_voc g voc)%Q)
    /\
    ((lc50_nox_ppb p <= 0)%Q ->
     forall (s : State5D Q) (voc : Q),
       r_nox g s = 0%Q /\ (w_nox p * r_nox g s == 0)%Q /\
       (r_bee (computeHazard g s voc)
        == w_pm25 p * r_pm g s + w_o3 p * r_o3 g s
           + w_voc p * r_voc g voc)%Q)
    /\
    ((lc50_o3_ppb p <= 0)%Q ->
     forall (s : State5D Q) (voc : Q),
       r_o3 g s = 0%Q /\ (w_o3 p * r_o3 g s == 0)%Q /\
       (r_bee (computeHazard g s voc)
        == w_pm25 p * r_pm g s + w_nox p * r_nox g s
           + w_voc p * r_voc g voc)%Q)
    /\
    ((lc50_voc_ug_m3 p <= 0)%Q ->
     forall (s : State5D Q) (voc : Q),
       r_voc g voc = 0%Q /\ (w_voc p * r_voc g voc == 0)%Q /\
       (r_bee (computeHazard g s voc)
        == w_pm25 p * r_pm g s + w_nox p * r_nox g s
           + w_o3 p * r_o3 g s)%Q).
Proof.
  intros g p; subst p.
  repeat split; cbn [r_bee computeHazard d_add d_mul d_zero Q_Double];
    try match goal with
    | H : (?lc <= 0)%Q |- _ =>
        apply Qltb_false_iff in H;
        unfold r_pm, r_nox, r_o3, r_voc; cbn [d_ltb d_zero Q_Double];
        rewrite H
    end;
    try reflexivity; ring.
Qed.

Lemma nonpositive_lc50_silences_channel_witness :
  r_pm Samples.gas_only_guard Samples.dusty_state = 0%Q
  /\ r_voc Samples.gas_only_guard 900%Q = 0%Q
  /\ (r_bee (computeHazard Samples.gas_only_guard Samples.dusty_state
                           900%Q) == 1 # 16)%Q.
Proof.
  destruct (nonpositive_lc50_silences_channel Samples.gas_only_guard)
    as (Hpm & _ & _ & Hvoc).
  assert (Hlc1 : (lc50_pm25_ug_m3 (params_ Samples.gas_only_guard) <= 0)%Q)
    by (vm_compute; discriminate).
  assert (Hlc4 : (lc50_voc_ug_m3 (params_ Samples.gas_only_guard) <= 0)%Q)
    by (vm_compute; discriminate).
  destruct (Hpm Hlc1 Samples.dusty_state 900%Q) as (H1 & _ & Hsum).
  destruct (Hvoc Hlc4 Samples.dusty_state 900%Q) as (H4 & _ & _).
  split; [exact H1 | split; [exact H4 |]].
  rewrite Hsum. reflexivity.
Defined.

(** C8. With the four mixture weights non-negative, the risk index is
    monotone non-decreasing in each single reading (PM2.5, NOx, O3 and VOC)
    while the other readings and the configuration are held fixed. *)
Theorem r_bee_monotone_each_reading :
  forall (g : BeePolytopeGuard Q),
    (0 <= w_pm25 (params_ g))%Q -> (0 <= w_nox (params_ g))%Q ->
    (0 <= w_o3 (params_ g))%Q -> (0 <= w_voc (params_ g))%Q ->
    forall (s : State5D Q) (voc lo hi : Q),
      (lo <= hi)%Q ->
      (r_bee (computeHazard g (with_pm25 s lo) voc)
       <= r_bee (computeHazard g (with_pm25 s hi) voc))%Q
      /\ (r_bee (computeHazard g (with_nox s lo) voc)
          <= r_bee (computeHazard g (with_nox s hi) voc))%Q
      /\ (r_bee (computeHazard g (with_o3 s lo) voc)
          <= r_bee (computeHazard g (with_o3 s hi) voc))%Q
      /\ (r_bee (computeHazard g s lo)
          <= r_bee (computeHazard g s hi))%Q.
Proof.
  intros g Wpm Wnox Wo3 Wvoc s voc lo hi Hle.
  repeat split; apply r_bee_monotone_joint;
    try assumption; try apply Qle_refl.
Qed.

Lemma r_bee_monotone_each_reading_witness :
  (r_bee (computeHazard Samples.scenario_guard
            (with_nox Samples.scenario_state 20) 50)
   <= r_bee (computeHazard Samples.scenario_guard
               (with_nox Samples.scenario_state 90) 50))%Q.
Proof.
  refine (proj1 (proj2 (r_bee_monotone_each_reading
                          Samples.scenario_guard _ _ _ _
                          Samples.scenario_state 50 20 90 _)));
    vm_compute; discriminate.
Defined.

(** ** Region classification *)

(** C3 (amended).  With a bound for every row of both polytopes,
    [classifyRegion] returns forage-safe iff the point passes the forage
    polytope, that is, no row makes the code's test [dot > b_i + 1e-9] true
    on the dot product as the code computes it; retreat-only iff it does
    not pass the forage polytope but passes the retreat polytope;
    forbidden iff it passes neither.  A point that passes both is
    forage-safe.  This holds for every arithmetic instance, binary64
    included. *)
Theorem classifyRegion_by_code_test :
  forall (D : Type) (num : Double D) (g : BeePolytopeGuard D)
         (s : State5D D),
    guard_wf g ->
    (classifyRegion g s = Some FORAGE_SAFE <-> passes (foragePoly_ g) s)
    /\ (classifyRegion g s = Some RETREAT_ONLY
        <-> ~ passes (foragePoly_ g) s /\ passes (retreatPoly_ g) s)
    /\ (classifyRegion g s = Some FORBIDDEN
        <-> ~ passes (foragePoly_ g) s /\ ~ passes (retreatPoly_ g) s)
    /\ (passes (foragePoly_ g) s -> passes (retreatPoly_ g) s ->
        classifyRegion g s = Some FORAGE_SAFE).
Proof.
  intros D num g s [Hf Hr].
  pose proof (inPolytope_true_iff_passes _ s Hf) as Ff.
  pose proof (inPolytope_true_iff_passes _ s Hr) as Fr.
  unfold classifyRegion.
  destruct (inPolytope_total _ s Hf) as [[|] Ef]; rewrite Ef in *.
  - assert (Hp : passes (foragePoly_ g) s) by (apply Ff; reflexivity).
    intuition congruence.
  - assert (Hnp : ~ passes (foragePoly_ g) s).
    { intros Hp. apply Ff in Hp. discriminate Hp. }
    destruct (inPolytope_total _ s Hr) as [[|] Er]; rewrite Er in *.
    + assert (Hpr : passes (retreatPoly_ g) s) by (apply Fr; reflexivity).
      intuition congruence.
    + assert (Hnr : ~ passes (retreatPoly_ g) s).
      { intros Hp. apply Fr in Hp. discriminate Hp. }
      intuition congruence.
Qed.

Lemma classifyRegion_by_code_test_witness :
  guard_wf Samples.thermal_guard_f64
  /\ ~ passes (foragePoly_ Samples.thermal_guard_f64)
              Samples.drift_state_f64
  /\ passes (retreatPoly_ Samples.thermal_guard_f64)
            Samples.drift_state_f64.
Proof.
  assert (Hwf : guard_wf Samples.thermal_guard_f64) by (split; cbv; lia).
  split; [exact Hwf |].
  apply (proj1 (proj1 (proj2
           (classifyRegion_by_code_test float F64_Double
              Samples.thermal_guard_f64 Samples.drift_state_f64 Hwf)))).
  vm_compute. reflexivity.
Defined.

(** C3 as stated fails on doubles.  First, a state with a NaN reading at
    45 degrees C is labelled forage-safe although the comparison
    [dot <= 32 + 1e-9] is false for it.  Second, a finite point: the
    binary64 sum for the row [2^60 * x0 + x1 - 2^60 * x2] at (1, 1, 1, 0, 0)
    is 0, so the point is labelled forage-safe, while the exact values of
    that row and point give a dot product of 1, which is not
    [<= 0.5 + 1e-9]. *)
Lemma classifyRegion_accepts_violated_halfspace :
  (classifyRegion Samples.thermal_guard_f64 Samples.nan_state_f64
   = Some FORAGE_SAFE
   /\ (dot Samples.temp_row_f64 (state_vec Samples.nan_state_f64)
       <=? 32 + d_eps)%float = false)
  /\
  (classifyRegion Samples.cancel_guard_f64 Samples.cancel_state_f64
   = Some FORAGE_SAFE
   /\ exact_array5 Samples.cancel_row_f64 = Some Samples.cancel_row
   /\ exact_array5 (state_vec Samples.cancel_state_f64)
      = Some (state_vec Samples.cancel_state)
   /\ exact_value 0.5%float = Some (1 # 2)%Q
   /\ (row_dot_x Samples.cancel_row (state_vec Samples.cancel_state)
       == 1)%Q
   /\ ~ satisfies Samples.cancel_poly Samples.cancel_state).
Proof.
  split; [split; vm_compute; reflexivity |].
  repeat split; try (vm_compute; reflexivity).
  intros Hsat.
  specialize (Hsat 0%nat Samples.cancel_row (1 # 2)%Q eq_refl eq_refl).
  vm_compute in Hsat. apply Hsat. reflexivity.
Qed.

(** In exact rational arithmetic the code's test is the half-space
    condition [row_i . x <= b_i + 1e-9] itself, so there the labels are
    decided by [satisfies] (boundary points are members). *)
Lemma classifyRegion_spec :
  forall (g : BeePolytopeGuard Q) (s : State5D Q),
    guard_wf g ->
    (classifyRegion g s = Some FORAGE_SAFE
     <-> satisfies (foragePoly_ g) s)
    /\ (classifyRegion g s = Some RETREAT_ONLY
        <-> ~ satisfies (foragePoly_ g) s /\ satisfies (retreatPoly_ g) s)
    /\ (classifyRegion g s = Some FORBIDDEN
        <-> ~ satisfies (foragePoly_ g) s
            /\ ~ satisfies (retreatPoly_ g) s)
    /\ (satisfies (foragePoly_ g) s -> satisfies (retreatPoly_ g) s ->
        classifyRegion g s = Some FORAGE_SAFE).
Proof.
  intros g s [Hf Hr].
  pose proof (inPolytope_true_iff_satisfies _ s Hf) as Ff.
  pose proof (inPolytope_true_iff_satisfies _ s Hr) as Fr.
  unfold classifyRegion.
  destruct (inPolytope_total _ s Hf) as [[|] Ef]; rewrite Ef in *.
  - assert (Hsat : satisfies (foragePoly_ g) s) by (apply Ff; reflexivity).
    intuition congruence.
  - assert (Hns : ~ satisfies (foragePoly_ g) s).
    { intros Hsat. apply Ff in Hsat. discriminate Hsat. }
    destruct (inPolytope_total _ s Hr) as [[|] Er]; rewrite Er in *.
    + assert (Hsr : satisfies (retreatPoly_ g) s)
        by (apply Fr; reflexivity).
      intuition congruence.
    + assert (Hnr : ~ satisfies (retreatPoly_ g) s).
      { intros Hsat. apply Fr in Hsat. discriminate Hsat. }
      intuition congruence.
Qed.

Lemma classifyRegion_spec_witness :
  guard_wf Samples.thermal_guard
  /\ ~ satisfies (foragePoly_ Samples.thermal_guard) Samples.hot_state
  /\ satisfies (retreatPoly_ Samples.thermal_guard) Samples.hot_state.
Proof.
  assert (Hwf : guard_wf Samples.thermal_guard) by (split; cbv; lia).
  split; [exact Hwf |].
  apply (proj1 (proj1 (proj2
           (classifyRegion_spec Samples.thermal_guard Samples.hot_state
                                Hwf)))).
  vm_compute. reflexivity.
Defined.

(** C5 (amended).  A polytope with zero rows contains every point.  With an
    empty forage polytope [classifyRegion] returns forage-safe for every
    point.  With an empty retreat polytope it returns retreat-only for
    every point that the forage polytope rejects, and never forbidden;
    points of the forage polytope keep the label forage-safe. *)
Theorem empty_polytope_contains_every_point :
  forall (D : Type) (num : Double D) (g : BeePolytopeGuard D),
    (A (foragePoly_ g) = [] ->
     forall s : State5D D,
       inPolytope (foragePoly_ g) s = Some true
       /\ classifyRegion g s = Some FORAGE_SAFE)
    /\
    (A (retreatPoly_ g) = [] ->
     forall s : State5D D,
       inPolytope (retreatPoly_ g) s = Some true
       /\ (inPolytope (foragePoly_ g) s = Some true ->
           classifyRegion g s = Some FORAGE_SAFE)
       /\ (inPolytope (foragePoly_ g) s = Some false ->
           classifyRegion g s = Some RETREAT_ONLY)
       /\ classifyRegion g s <> Some FORBIDDEN).
Proof.
  intros D num g. split; intros Hempty s.
  - assert (Hin : inPolytope (foragePoly_ g) s = Some true)
      by (unfold inPolytope; rewrite Hempty; reflexivity).
    split; [exact Hin |]. unfold classifyRegion. rewrite Hin. reflexivity.
  - assert (Hin : inPolytope (retreatPoly_ g) s = Some true)
      by (unfold inPolytope; rewrite Hempty; reflexivity).
    split; [exact Hin |]. unfold classifyRegion. rewrite Hin.
    repeat split.
    + intros ->. reflexivity.
    + intros ->. reflexivity.
    + destruct (inPolytope (foragePoly_ g) s) as [[|] |]; discriminate.
Qed.

Lemma empty_polytope_contains_every_point_witness :
  A (foragePoly_ Samples.scenario_guard) = []
  /\ classifyRegion Samples.scenario_guard Samples.scenario_state
     = Some FORAGE_SAFE
  /\ A (retreatPoly_ Samples.open_retreat_guard) = []
  /\ classifyRegion Samples.open_retreat_guard Samples.scorching_state
     = Some RETREAT_ONLY.
Proof.
  split; [reflexivity |].
  split.
  - exact (proj2 (proj1 (empty_polytope_contains_every_point
                           Q Q_Double Samples.scenario_guard)
                        eq_refl Samples.scenario_state)).
  - split; [reflexivity |].
    refine (proj1 (proj2 (proj2
              (proj2 (empty_polytope_contains_every_point
                        Q Q_Double Samples.open_retreat_guard)
                     eq_refl Samples.scorching_state))) _).
    vm_compute. reflexivity.
Defined.

(** C5 as stated fails for the retreat polytope: here the retreat polytope
    has no rows, and a point of the forage polytope is still labelled
    forage-safe, not retreat-only. *)
Lemma empty_retreat_polytope_not_always_retreat_only :
  A (retreatPoly_ Samples.open_retreat_guard) = []
  /\ classifyRegion Samples.open_retreat_guard Samples.mild_state
     = Some FORAGE_SAFE
  /\ classifyRegion Samples.open_retreat_guard Samples.mild_state
     <> Some RETREAT_ONLY.
Proof.
  split; [reflexivity |].
  split; [vm_compute; reflexivity | vm_compute; discriminate].
Qed.

(** ** Actuation *)

(** C1. Hard stop.  If the classified region is forbidden, or the risk
    index is at least the hard limit, [computeActuation] returns duty scale
    [0.0] and forbids foraging.  Either condition is enough on its own: a
    forbidden region whatever the risk, and a risk at or above the hard
    limit whatever the region, forage-safe included. *)
Theorem hard_stop_overrides :
  forall (g : BeePolytopeGuard Q) (s : State5D Q) (voc : Q),
    guard_wf g ->
    exists lim,
      computeActuation g s voc = Some lim
      /\ classifyRegion g s = Some (region lim)
      /\ (region lim = FORBIDDEN
          \/ (rBeeHardLimit_ g <= r_bee (computeHazard g s voc))%Q ->
          duty_scale lim = 0%Q /\ allow_foraging lim = false).
Proof.
  intros g s voc Hwf.
  destruct (classifyRegion_total g s Hwf) as [rg Hrg].
  destruct (computeActuation_region g s voc rg Hrg) as (lim & Hlim & Hreg).
  exists lim. split; [exact Hlim |]. split; [congruence |].
  intros Hstop.
  assert (Hstop' : rg = FORBIDDEN
                   \/ d_leb (rBeeHardLimit_ g)
                            (r_bee (computeHazard g s voc)) = true).
  { destruct Hstop as [Hforb | Hge].
    - left. congruence.
    - right. apply Qle_bool_iff. exact Hge. }
  rewrite (computeActuation_hard_stop g s voc rg Hrg Hstop') in Hlim.
  injection Hlim as <-. split; reflexivity.
Qed.

Lemma hard_stop_overrides_witness :
  (* forbidden region, zero risk *)
  (exists lim,
      computeActuation Samples.thermal_guard Samples.scorching_state 0%Q
      = Some lim
      /\ region lim = FORBIDDEN
      /\ (r_bee (computeHazard Samples.thermal_guard
                               Samples.scorching_state 0%Q) == 0)%Q
      /\ duty_scale lim = 0%Q /\ allow_foraging lim = false)
  /\
  (* forage-safe region, risk at the hard limit *)
  (exists lim,
      computeActuation Samples.thermal_guard
                       (mkState5D 64 0 0 25 10)%Q 0%Q = Some lim
      /\ region lim = FORAGE_SAFE
      /\ (r_bee (computeHazard Samples.thermal_guard
                               (mkState5D 64 0 0 25 10)%Q 0%Q) == 1)%Q
      /\ duty_scale lim = 0%Q /\ allow_foraging lim = false).
Proof.
  assert (Hwf : guard_wf Samples.thermal_guard) by (split; cbv; lia).
  split.
  - destruct (hard_stop_overrides Samples.thermal_guard
                Samples.scorching_state 0%Q Hwf)
      as (lim & Hlim & Hreg & Hstop).
    assert (Hforb : region lim = FORBIDDEN).
    { eval_region Hreg. exact Hreg. }
    exists lim. split; [exact Hlim |]. split; [exact Hforb |].
    split; [reflexivity |]. apply Hstop. left. exact Hforb.
  - destruct (hard_stop_overrides Samples.thermal_guard
                (mkState5D 64 0 0 25 10)%Q 0%Q Hwf)
      as (lim & Hlim & Hreg & Hstop).
    exists lim. split; [exact Hlim |].
    split; [eval_region Hreg; exact Hreg |].
    split; [reflexivity |]. apply Hstop. right.
    vm_compute. discriminate.
Defined.

(** C9. Foraging is allowed exactly in the full-operation tier: the region
    is forage-safe, the risk index is not at or above the hard limit, and
    it is not above the soft limit.  Whenever foraging is allowed the duty
    scale is exactly [1.0]. *)
Theorem allow_foraging_iff_full_operation :
  forall (g : BeePolytopeGuard Q) (s : State5D Q) (voc : Q),
    guard_wf g ->
    exists lim,
      computeActuation g s voc = Some lim
      /\ classifyRegion g s = Some (region lim)
      /\ (allow_foraging lim = true <->
          region lim = FORAGE_SAFE
          /\ ~ (rBeeHardLimit_ g <= r_bee (computeHazard g s voc))%Q
          /\ ~ (rBeeSoftLimit_ g < r_bee (computeHazard g s voc))%Q)
      /\ (allow_foraging lim = true -> duty_scale lim = 1%Q).
Proof.
  intros g s voc Hwf.
  destruct (classifyRegion_total g s Hwf) as [rg Hrg].
  destruct (computeActuation_tier_cases g s voc rg)
    as [Hstop | [(Hnf & Hlt & Hthr) | (Hfs & Hlt & Hle)]].
  - rewrite (computeActuation_hard_stop g s voc rg Hrg Hstop).
    eexists. split; [reflexivity |]. split; [exact Hrg |].
    cbn [allow_foraging region duty_scale].
    split; [| discriminate].
    split; [discriminate |].
    intros (Hreg & Hnge & _). exfalso. destruct Hstop as [Hforb | Hge].
    + congruence.
    + apply Hnge. apply Qle_bool_iff. exact Hge.
  - rewrite (computeActuation_throttled g s voc rg Hrg Hnf Hlt Hthr).
    eexists. split; [reflexivity |]. split; [exact Hrg |].
    cbn [allow_foraging region duty_scale].
    split; [| discriminate].
    split; [discriminate |].
    intros (Hreg & _ & Hngt). exfalso. destruct Hthr as [Hret | Hgt].
    + congruence.
    + apply Hngt. apply Qltb_true_iff. exact Hgt.
  - rewrite (computeActuation_full g s voc rg Hrg Hfs Hlt Hle).
    eexists. split; [reflexivity |]. split; [exact Hrg |].
    cbn [allow_foraging region duty_scale].
    split; [| reflexivity].
    split; [| reflexivity].
    intros _. cbn [d_leb d_ltb Q_Double] in Hlt, Hle. q_tests.
    split; [exact Hfs |].
    split; [apply Qlt_not_le; exact Hlt | apply Qle_not_lt; exact Hle].
Qed.

Lemma allow_foraging_iff_full_operation_witness :
  exists lim,
    computeActuation Samples.scenario_guard Samples.scenario_state 50%Q
    = Some lim
    /\ allow_foraging lim = true /\ duty_scale lim = 1%Q.
Proof.
  assert (Hwf : guard_wf Samples.scenario_guard) by (split; cbv; lia).
  destruct (allow_foraging_iff_full_operation Samples.scenario_guard
              Samples.scenario_state 50%Q Hwf)
    as (lim & Hlim & Hreg & Hiff & Hduty).
  assert (Hallow : allow_foraging lim = true).
  { apply Hiff. split.
    - eval_region Hreg. exact Hreg.
    - split; [apply Qlt_not_le; reflexivity
             | apply Qle_not_lt; vm_compute; discriminate]. }
  exists lim. split; [exact Hlim |]. split; [exact Hallow |].
  apply Hduty. exact Hallow.
Defined.

(** C4 (amended).  In the throttled tier (no hard stop, and the region is
    retreat-only or the risk index is above the soft limit), whenever the
    risk index is non-negative the duty scale is the ramp
    [(1 - risk/hard) * 0.5]: it lies between [0] and [0.5], it is exactly
    [0.5] at risk zero, and foraging is forbidden. *)
Theorem throttled_duty_at_most_half :
  forall (g : BeePolytopeGuard Q) (s : State5D Q) (voc : Q),
    guard_wf g ->
    exists lim,
      computeActuation g s voc = Some lim
      /\ classifyRegion g s = Some (region lim)
      /\ (region lim <> FORBIDDEN ->
          ~ (rBeeHardLimit_ g <= r_bee (computeHazard g s voc))%Q ->
          region lim = RETREAT_ONLY
          \/ (rBeeSoftLimit_ g < r_bee (computeHazard g s voc))%Q ->
          (0 <= r_bee (computeHazard g s voc))%Q ->
          allow_foraging lim = false
          /\ (0 <= duty_scale lim)%Q /\ (duty_scale lim <= 1 # 2)%Q
          /\ (duty_scale lim
              == (1 - r_bee (computeHazard g s voc) / rBeeHardLimit_ g)
                 * (1 # 2))%Q
          /\ ((r_bee (computeHazard g s voc) == 0)%Q ->
              (duty_scale lim == 1 # 2)%Q)).
Proof.
  intros g s voc Hwf.
  destruct (classifyRegion_total g s Hwf) as [rg Hrg].
  destruct (computeActuation_region g s voc rg Hrg) as (lim & Hlim & Hreg).
  exists lim. split; [exact Hlim |]. split; [congruence |].
  intros Hnf Hnge Hthr Hnn. rewrite Hreg in Hnf, Hthr.
  apply Qnot_le_lt in Hnge.
  assert (Hlt : d_leb (rBeeHardLimit_ g)
                      (r_bee (computeHazard g s voc)) = false)
    by (apply Qle_bool_false_iff; exact Hnge).
  assert (Hthr' : rg = RETREAT_ONLY
                  \/ d_ltb (rBeeSoftLimit_ g)
                           (r_bee (computeHazard g s voc)) = true).
  { destruct Hthr as [Hret | Hgt]; [left; exact Hret | right].
    apply Qltb_true_iff. exact Hgt. }
  rewrite (computeActuation_throttled g s voc rg Hrg Hnf Hlt Hthr') in Hlim.
  injection Hlim as <-.
  cbn [allow_foraging duty_scale d_mul d_half d_zero d_one d_sub d_div
       Q_Double].
  split; [reflexivity |].
  destruct (half_scale_bounds _ (alpha_bounds _ _ Hnn Hnge)) as [Hd0 Hd1].
  split; [exact Hd0 |]. split; [exact Hd1 |].
  assert (Hpos : (0 < rBeeHardLimit_ g)%Q)
    by exact (Qle_lt_trans _ _ _ Hnn Hnge).
  assert (Hramp : (d_max 0 (1 - r_bee (computeHazard g s voc)
                                / rBeeHardLimit_ g)%Q
                   == 1 - r_bee (computeHazard g s voc)
                          / rBeeHardLimit_ g)%Q).
  { unfold d_max. cbn [d_ltb Q_Double].
    assert (Hdiv : (r_bee (computeHazard g s voc) / rBeeHardLimit_ g
                    < 1)%Q).
    { apply Qlt_shift_div_r; [exact Hpos |].
      rewrite Qmult_1_l. exact Hnge. }
    assert (Htest : Qltb 0 (1 - r_bee (computeHazard g s voc)
                                / rBeeHardLimit_ g) = true)
      by (apply Qltb_true_iff; lra).
    rewrite Htest. reflexivity. }
  split.
  - rewrite Hramp. reflexivity.
  - intros Hzero. rewrite Hramp, Hzero.
    field. intros Habs. rewrite Habs in Hpos.
    apply (Qlt_irrefl 0). exact Hpos.
Qed.

Lemma throttled_duty_at_most_half_witness :
  exists lim,
    computeActuation Samples.thermal_guard Samples.hot_state 0%Q = Some lim
    /\ region lim = RETREAT_ONLY
    /\ allow_foraging lim = false
    /\ (0 <= duty_scale lim)%Q /\ (duty_scale lim <= 1 # 2)%Q
    /\ (duty_scale lim == 1 # 2)%Q.
Proof.
  assert (Hwf : guard_wf Samples.thermal_guard) by (split; cbv; lia).
  destruct (throttled_duty_at_most_half Samples.thermal_guard
              Samples.hot_state 0%Q Hwf)
    as (lim & Hlim & Hreg & Hbound).
  eval_region Hreg.
  exists lim. split; [exact Hlim |]. split; [exact Hreg |].
  destruct Hbound as (Hallow & Hd0 & Hd1 & _ & Hhalf).
  - rewrite Hreg. discriminate.
  - apply Qlt_not_le. reflexivity.
  - left. exact Hreg.
  - vm_compute. discriminate.
  - repeat split; try assumption. apply Hhalf. reflexivity.
Defined.

(** C4 as stated fails below zero.  On a hot day (retreat-only) with a NOx
    reading of -8 ppb the risk index is -1/64, the call is not hard-stopped
    and lands in the throttled tier, and the duty scale is 65/128, above
    one half. *)
Lemma throttled_duty_above_half_on_negative_risk :
  exists lim,
    computeActuation Samples.thermal_guard Samples.drift_state 0%Q
    = Some lim
    /\ region lim = RETREAT_ONLY
    /\ allow_foraging lim = false
    /\ (r_bee (computeHazard Samples.thermal_guard Samples.drift_state
                             0%Q) == - (1 # 64))%Q
    /\ ~ (rBeeHardLimit_ Samples.thermal_guard
          <= r_bee (computeHazard Samples.thermal_guard
                                  Samples.drift_state 0%Q))%Q
    /\ (duty_scale lim == 65 # 128)%Q
    /\ ~ (duty_scale lim <= 1 # 2)%Q.
Proof.
  eexists. split; [vm_compute; reflexivity |].
  cbn [region allow_foraging duty_scale].
  repeat split; try reflexivity; apply Qlt_not_le; reflexivity.
Qed.

(** The same input in binary64: every number involved is exact, and the
    duty scale is 0.5078125. *)
Example drift_replay_binary64 :
  computeActuation Samples.thermal_guard_f64 Samples.drift_state_f64
                   0%float
  = Some {| region := RETREAT_ONLY; duty_scale := 0.5078125%float;
            allow_foraging := false |}.
Proof. vm_compute. reflexivity. Qed.

(** C2 at a failing input.  On a hot day (retreat-only) with a NOx reading
    of -1024 ppb the risk index is -2, the call lands in the throttled
    tier, and the duty scale is 3/2, outside [0, 1]. *)
Theorem duty_scale_above_one_on_negative_risk :
  exists lim,
    computeActuation Samples.thermal_guard Samples.deep_drift_state 0%Q
    = Some lim
    /\ region lim = RETREAT_ONLY
    /\ (r_bee (computeHazard Samples.thermal_guard
                             Samples.deep_drift_state 0%Q) == - 2)%Q
    /\ (duty_scale lim == 3 # 2)%Q
    /\ ~ (duty_scale lim <= 1)%Q.
Proof.
  eexists. split; [vm_compute; reflexivity |].
  cbn [region duty_scale].
  repeat split; try reflexivity; apply Qlt_not_le; reflexivity.
Qed.

(** The same input in binary64: the duty scale is 1.5. *)
Example deep_drift_replay_binary64 :
  computeActuation Samples.thermal_guard_f64 Samples.deep_drift_state_f64
                   0%float
  = Some {| region := RETREAT_ONLY; duty_scale := 1.5%float;
            allow_foraging := false |}.
Proof. vm_compute. reflexivity. Qed.

(** * Further properties of the engine *)

(** ** The membership loop: reads of [b], and concatenated constraints *)

Section LoopStructure.

Context {D : Type} {num : Double D}.
Local Open Scope dbl_scope.

Lemma inPolytope_from_none_iff (P : Polytope D) (x : array5 D) :
  forall rows i,
    (i <= length (b P))%nat ->
    (inPolytope_from P x rows i = None <->
     (length (b P) < i + length rows)%nat
     /\ forall k row bk,
          nth_error rows k = Some row ->
          nth_error (b P) (i + k) = Some bk ->
          (dot row x >? bk + d_eps) = false).
Proof.
  induction rows as [| row rest IH]; intros i Hi; simpl.
  - split; [discriminate | intros [Hlt _]; lia].
  - destruct (nth_error (b P) i) as [bi |] eqn:Hb.
    + assert (Hlt : (i < length (b P))%nat)
        by (apply nth_error_Some; congruence).
      destruct (dot row x >? bi + d_eps) eqn:Htest.
      * split; [discriminate |]. intros [_ Hall].
        specialize (Hall 0%nat row bi eq_refl).
        rewrite Nat.add_0_r in Hall. specialize (Hall Hb). congruence.
      * rewrite IH by lia. split; intros [Hlen Hall]; (split; [lia |]).
        -- intros [| k] row' bk Hrow Hbk; simpl in Hrow.
           ++ rewrite Nat.add_0_r in Hbk. congruence.
           ++ apply (Hall k row' bk Hrow). rewrite <- Hbk. f_equal. lia.
        -- intros k row' bk Hrow Hbk.
           apply (Hall (S k) row' bk Hrow). rewrite <- Hbk. f_equal. lia.
    + apply nth_error_None in Hb. split; [| reflexivity].
      intros _. split; [lia |].
      intros k row' bk _ Hbk.
      assert (nth_error (b P) (i + k) = None)
        by (apply nth_error_None; lia).
      congruence.
Qed.

(** Reads of [b1 ++ b2] below and above the length of [b1]. *)
Lemma inPolytope_from_app_right (P1 P2 : Polytope D) (x : array5 D) :
  forall rows j,
    inPolytope_from (poly_app P1 P2) x rows (length (b P1) + j)
    = inPolytope_from P2 x rows j.
Proof.
  induction rows as [| row rest IH]; intros j; simpl; [reflexivity |].
  rewrite nth_error_app2 by lia.
  replace (length (b P1) + j - length (b P1))%nat with j by lia.
  destruct (nth_error (b P2) j) as [bj |]; [| reflexivity].
  destruct (dot row x >? bj + d_eps); [reflexivity |].
  rewrite <- IH. f_equal. lia.
Qed.

Lemma inPolytope_from_app_left (P1 P2 : Polytope D) (x : array5 D) :
  forall rows i,
    (i + length rows = length (b P1))%nat ->
    inPolytope_from (poly_app P1 P2) x (rows ++ A P2) i
    = match inPolytope_from P1 x rows i with
      | Some true => inPolytope_from P2 x (A P2) 0
      | other => other
      end.
Proof.
  induction rows as [| row rest IH]; intros i Hlen; simpl in *.
  - rewrite <- (inPolytope_from_app_right P1 P2 x (A P2) 0).
    f_equal. lia.
  - rewrite nth_error_app1 by lia.
    destruct (nth_error (b P1) i) as [bi |] eqn:Hb.
    + destruct (dot row x >? bi + d_eps); [reflexivity |].
      apply IH. lia.
    + apply nth_error_None in Hb. lia.
Qed.

End LoopStructure.

(** X1. [inPolytope] reads [b] out of range exactly when [b] is shorter
    than [A] and the point passes every row that does have a bound: a
    violated row among the first [b.size()] rows makes the loop return
    before the bad read.  Holds for every arithmetic instance. *)
Theorem inPolytope_out_of_range_iff :
  forall (D : Type) (num : Double D) (P : Polytope D) (s : State5D D),
    inPolytope P s = None <->
    (length (b P) < length (A P))%nat
    /\ forall (i : nat) (row : array5 D) (bi : D),
         nth_error (A P) i = Some row ->
         nth_error (b P) i = Some bi ->
         d_ltb (d_add bi d_eps) (dot row (state_vec s)) = false.
Proof.
  intros D num P s. unfold inPolytope.
  rewrite inPolytope_from_none_iff by lia. reflexivity.
Qed.

(** X2. Putting the constraints of [P2] after those of [P1] (with [P1]
    having one bound per row) tests [P1] first and then [P2]: the result
    is that of [P1] unless [P1] accepts the point, and then it is that of
    [P2].  In particular the concatenation accepts exactly the points both
    accept. *)
Theorem inPolytope_poly_app :
  forall (D : Type) (num : Double D) (P1 P2 : Polytope D) (s : State5D D),
    length (A P1) = length (b P1) ->
    inPolytope (poly_app P1 P2) s
    = match inPolytope P1 s with
      | Some true => inPolytope P2 s
      | other => other
      end
    /\ (inPolytope (poly_app P1 P2) s = Some true <->
        inPolytope P1 s = Some true /\ inPolytope P2 s = Some true).
Proof.
  intros D num P1 P2 s Hlen.
  assert (Heq : inPolytope (poly_app P1 P2) s
                = match inPolytope P1 s with
                  | Some true => inPolytope P2 s
                  | other => other
                  end).
  { unfold inPolytope. cbn [A poly_app].
    apply inPolytope_from_app_left. exact Hlen. }
  split; [exact Heq |]. rewrite Heq.
  destruct (inPolytope P1 s) as [[|] |]; split;
    try (intros [H1 H2]); try (intros H); try discriminate;
    try (split; [reflexivity | assumption]); assumption.
Qed.

Lemma inPolytope_poly_app_witness :
  inPolytope (poly_app (foragePoly_ Samples.thermal_guard)
                       (retreatPoly_ Samples.thermal_guard))
             Samples.hot_state
  = Some false.
Proof.
  rewrite (proj1 (inPolytope_poly_app Q Q_Double
                    (foragePoly_ Samples.thermal_guard)
                    (retreatPoly_ Samples.thermal_guard)
                    Samples.hot_state eq_refl)).
  reflexivity.
Defined.

(** ** The hazard indices over the rationals *)

Section HazardIndices.

Local Open Scope Q_scope.

Lemma guarded_ratio_nonneg (lc50 x : Q) :
  0 <= x -> 0 <= (if Qltb 0 lc50 then x / lc50 else 0).
Proof.
  intros Hx. destruct (Qltb 0 lc50) eqn:Hpos; [| apply Qle_refl].
  q_tests. apply Qle_shift_div_l; [exact Hpos |].
  rewrite Qmult_0_l. exact Hx.
Qed.

Lemma guarded_ratio_convert (k lc50 x : Q) :
  0 < k ->
  (if Qltb 0 (k * lc50) then (k * x) / (k * lc50) else 0)
  == (if Qltb 0 lc50 then x / lc50 else 0).
Proof.
  intros Hk.
  destruct (Qltb 0 lc50) eqn:Hpos; q_tests.
  - assert (Hkl : 0 < k * lc50) by (apply Qmult_lt_0_compat; assumption).
    apply Qltb_true_iff in Hkl. rewrite Hkl. q_tests.
    field. split; intros Habs; rewrite Habs in *.
    + apply (Qlt_irrefl 0). exact Hpos.
    + apply (Qlt_irrefl 0). exact Hk.
  - assert (Hkl : k * lc50 <= 0).
    { rewrite <- (Qmult_0_r k).
      rewrite (Qmult_comm k lc50), (Qmult_comm k 0).
      apply Qmult_le_compat_r; [exact Hpos | apply Qlt_le_weak, Hk]. }
    apply Qltb_false_iff in Hkl. rewrite Hkl. reflexivity.
Qed.

Lemma guarded_ratio_scale (k lc50 x : Q) :
  (if Qltb 0 lc50 then (k * x) / lc50 else 0)
  == k * (if Qltb 0 lc50 then x / lc50 else 0).
Proof.
  destruct (Qltb 0 lc50) eqn:Hpos; q_tests; [| ring].
  field. intros Habs. rewrite Habs in Hpos.
  apply (Qlt_irrefl 0). exact Hpos.
Qed.

Lemma guarded_ratio_add (lc50 x y : Q) :
  (if Qltb 0 lc50 then (x + y) / lc50 else 0)
  == (if Qltb 0 lc50 then x / lc50 else 0)
     + (if Qltb 0 lc50 then y / lc50 else 0).
Proof.
  destruct (Qltb 0 lc50) eqn:Hpos; q_tests; [| ring].
  field. intros Habs. rewrite Habs in Hpos.
  apply (Qlt_irrefl 0). exact Hpos.
Qed.

End HazardIndices.

(** Unfolds the four ratios and the risk index of the rational instance. *)
Ltac unfold_hazard :=
  unfold computeHazard, r_pm, r_nox, r_o3, r_voc;
  cbn [r_bee pm25_eq within_viability params_ lc50_pm25_ug_m3 lc50_nox_ppb
       lc50_o3_ppb lc50_voc_ug_m3 w_pm25 w_nox w_o3 w_voc
       pm25_eq_viability_ug_m3 rBeeSoftLimit_ rBeeHardLimit_
       pm25_ug_m3 nox_ppb o3_ppb
       d_add d_sub d_mul d_div d_zero d_one d_ltb d_leb Q_Double].

Lemma within_viability_iff_aux (g : BeePolytopeGuard Q) (s : State5D Q)
    (voc : Q) :
  within_viability (computeHazard g s voc) = true <->
  (pm25_eq (computeHazard g s voc) <= pm25_eq_viability_ug_m3 (params_ g)
   /\ r_bee (computeHazard g s voc) <= rBeeSoftLimit_ g)%Q.
Proof.
  cbn [within_viability computeHazard]. rewrite andb_true_iff.
  cbn [d_leb Q_Double]. rewrite !Qle_bool_iff. reflexivity.
Qed.

(** Non-negative weights and readings give a non-negative risk index. *)
Lemma risk_nonneg_of_nonneg_inputs :
  forall (g : BeePolytopeGuard Q) (s : State5D Q) (voc : Q),
    weights_nonneg g -> readings_nonneg s voc ->
    (0 <= r_bee (computeHazard g s voc))%Q.
Proof.
  intros g s voc (Wpm & Wnox & Wo3 & Wvoc) (Rpm & Rnox & Ro3 & Rvoc).
  unfold_hazard.
  pose proof (Qmult_le_0_compat _ _ Wpm
                (guarded_ratio_nonneg (lc50_pm25_ug_m3 (params_ g)) _ Rpm)).
  pose proof (Qmult_le_0_compat _ _ Wnox
                (guarded_ratio_nonneg (lc50_nox_ppb (params_ g)) _ Rnox)).
  pose proof (Qmult_le_0_compat _ _ Wo3
                (guarded_ratio_nonneg (lc50_o3_ppb (params_ g)) _ Ro3)).
  pose proof (Qmult_le_0_compat _ _ Wvoc
                (guarded_ratio_nonneg (lc50_voc_ug_m3 (params_ g)) _ Rvoc)).
  lra.
Qed.

(** X3 (exact arithmetic).
    With non-negative weights and non-negative readings the risk index
    is non-negative, whatever the LC50 values: the range [0, inf) that the
    declaration of [r_bee] documents.  Binary64 departs from this when a
    ratio overflows to infinity under a zero weight: the product is NaN
    ([overflow_replay_binary64]). *)
Theorem r_bee_nonneg :
  forall (g : BeePolytopeGuard Q) (s : State5D Q) (voc : Q),
    weights_nonneg g -> readings_nonneg s voc ->
    (0 <= r_bee (computeHazard g s voc))%Q.
Proof.
  exact risk_nonneg_of_nonneg_inputs.
Qed.

Lemma r_bee_nonneg_witness :
  (0 <= r_bee (computeHazard Samples.scenario_guard Samples.scenario_state
                             50))%Q.
Proof.
  apply r_bee_nonneg.
  - repeat split; vm_compute; discriminate.
  - repeat split; vm_compute; discriminate.
Defined.

(** X4 (exact arithmetic).
    Expressing a pollutant in other units, that is multiplying its
    reading and its LC50 by the same positive factor, leaves the risk index
    unchanged; each of the four channels may have its own factor. *)
Theorem r_bee_unit_invariant :
  forall (g : BeePolytopeGuard Q) (s : State5D Q) (voc : Q)
         (k_pm k_nox k_o3 k_voc : Q),
    (0 < k_pm)%Q -> (0 < k_nox)%Q -> (0 < k_o3)%Q -> (0 < k_voc)%Q ->
    (r_bee (computeHazard (convert_lc50 k_pm k_nox k_o3 k_voc g)
                          (convert_readings k_pm k_nox k_o3 s)
                          (k_voc * voc))
     == r_bee (computeHazard g s voc))%Q.
Proof.
  intros g s voc k1 k2 k3 k4 H1 H2 H3 H4.
  unfold convert_lc50, convert_readings. unfold_hazard.
  rewrite (guarded_ratio_convert k1 _ _ H1), (guarded_ratio_convert k2 _ _ H2),
          (guarded_ratio_convert k3 _ _ H3), (guarded_ratio_convert k4 _ _ H4).
  reflexivity.
Qed.

Lemma r_bee_unit_invariant_witness :
  (r_bee (computeHazard
            (convert_lc50 1000 2 (1 # 2) 1000 Samples.scenario_guard)
            (convert_readings 1000 2 (1 # 2) Samples.scenario_state)
            (1000 * 50))
   == r_bee (computeHazard Samples.scenario_guard Samples.scenario_state
                           50))%Q.
Proof.
  apply r_bee_unit_invariant; reflexivity.
Defined.

(** X5 (exact arithmetic).
    Both indices are linear in the readings: multiplying the three
    pollutant readings and the VOC reading by [k] multiplies the risk index
    and the PM2.5-equivalent by [k]. *)
Theorem hazard_indices_homogeneous :
  forall (g : BeePolytopeGuard Q) (s : State5D Q) (voc k : Q),
    (r_bee (computeHazard g (convert_readings k k k s) (k * voc))
     == k * r_bee (computeHazard g s voc))%Q
    /\ (pm25_eq (computeHazard g (convert_readings k k k s) (k * voc))
        == k * pm25_eq (computeHazard g s voc))%Q.
Proof.
  intros g s voc k. unfold convert_readings. unfold_hazard. split.
  - rewrite !guarded_ratio_scale. ring.
  - ring.
Qed.

(** Both indices commute with blending two inputs. *)
Lemma indices_of_mix :
  forall (g : BeePolytopeGuard Q) (s1 s2 : State5D Q) (voc1 voc2 t : Q),
    (r_bee (computeHazard g (mix t s1 s2) (t * voc1 + (1 - t) * voc2))
     == t * r_bee (computeHazard g s1 voc1)
        + (1 - t) * r_bee (computeHazard g s2 voc2))%Q
    /\ (pm25_eq (computeHazard g (mix t s1 s2) (t * voc1 + (1 - t) * voc2))
        == t * pm25_eq (computeHazard g s1 voc1)
           + (1 - t) * pm25_eq (computeHazard g s2 voc2))%Q.
Proof.
  intros g s1 s2 voc1 voc2 t. unfold mix. unfold_hazard. split.
  - rewrite !guarded_ratio_add, !guarded_ratio_scale. ring.
  - ring.
Qed.

(** X6 (exact arithmetic).
    The risk index of a blend of two inputs is the same blend of their
    risk indices, and likewise for the PM2.5-equivalent. *)
Theorem hazard_indices_of_mix :
  forall (g : BeePolytopeGuard Q) (s1 s2 : State5D Q) (voc1 voc2 t : Q),
    (r_bee (computeHazard g (mix t s1 s2) (t * voc1 + (1 - t) * voc2))
     == t * r_bee (computeHazard g s1 voc1)
        + (1 - t) * r_bee (computeHazard g s2 voc2))%Q
    /\ (pm25_eq (computeHazard g (mix t s1 s2) (t * voc1 + (1 - t) * voc2))
        == t * pm25_eq (computeHazard g s1 voc1)
           + (1 - t) * pm25_eq (computeHazard g s2 voc2))%Q.
Proof.
  exact indices_of_mix.
Qed.

(** X7 (exact arithmetic).
    The risk index is a weighted mean of the four ratios: with a convex
    mixture of weights it lies between any lower and any upper bound common
    to the four ratios.  In binary64 rounding can carry the sum past the
    bound by an ulp ([rounding_replay_binary64]). *)
Theorem r_bee_between_ratio_bounds :
  forall (g : BeePolytopeGuard Q) (s : State5D Q) (voc lo hi : Q),
    weights_convex g ->
    (lo <= r_pm g s <= hi)%Q -> (lo <= r_nox g s <= hi)%Q ->
    (lo <= r_o3 g s <= hi)%Q -> (lo <= r_voc g voc <= hi)%Q ->
    (lo <= r_bee (computeHazard g s voc) <= hi)%Q.
Proof.
  intros g s voc lo hi [(Wpm & Wnox & Wo3 & Wvoc) Hsum]
         [L1 U1] [L2 U2] [L3 U3] [L4 U4].
  cbn [r_bee computeHazard d_add d_mul Q_Double].
  set (a := r_pm g s) in *. set (c := r_nox g s) in *.
  set (d := r_o3 g s) in *. set (e := r_voc g voc) in *.
  set (w1 := w_pm25 (params_ g)) in *. set (w2 := w_nox (params_ g)) in *.
  set (w3 := w_o3 (params_ g)) in *. set (w4 := w_voc (params_ g)) in *.
  assert (Hlo : lo == w1 * lo + w2 * lo + w3 * lo + w4 * lo).
  { transitivity ((w1 + w2 + w3 + w4) * lo); [rewrite Hsum |]; ring. }
  assert (Hhi : hi == w1 * hi + w2 * hi + w3 * hi + w4 * hi).
  { transitivity ((w1 + w2 + w3 + w4) * hi); [rewrite Hsum |]; ring. }
  split.
  - rewrite Hlo.
    repeat apply Qplus_le_compat; apply weighted_monotone; assumption.
  - rewrite Hhi.
    repeat apply Qplus_le_compat; apply weighted_monotone; assumption.
Qed.

Lemma r_bee_between_ratio_bounds_witness :
  (0 <= r_bee (computeHazard Samples.thermal_guard Samples.mild_state 64)
   <= 1 # 4)%Q.
Proof.
  apply r_bee_between_ratio_bounds.
  - split; [repeat split; vm_compute; discriminate | reflexivity].
  - split; vm_compute; discriminate.
  - split; vm_compute; discriminate.
  - split; vm_compute; discriminate.
  - split; vm_compute; discriminate.
Defined.

(** X8 (exact arithmetic).
    Lower readings never lose viability: with non-negative weights, if
    the viability flag is set for some readings it is set for all readings
    that are channel by channel no higher.  Stated for finite readings
    without overflow: a NaN risk index clears the flag in binary64. *)
Theorem within_viability_downward_closed :
  forall (g : BeePolytopeGuard Q) (s_lo s_hi : State5D Q) (voc_lo voc_hi : Q),
    weights_nonneg g ->
    (pm25_ug_m3 s_lo <= pm25_ug_m3 s_hi)%Q ->
    (nox_ppb s_lo <= nox_ppb s_hi)%Q ->
    (o3_ppb s_lo <= o3_ppb s_hi)%Q ->
    (voc_lo <= voc_hi)%Q ->
    within_viability (computeHazard g s_hi voc_hi) = true ->
    within_viability (computeHazard g s_lo voc_lo) = true.
Proof.
  intros g s_lo s_hi voc_lo voc_hi Hw Hpm Hnox Ho3 Hvoc.
  rewrite !within_viability_iff_aux.
  destruct Hw as (Wpm & Wnox & Wo3 & Wvoc).
  intros [Heq Hrisk]. split.
  - eapply Qle_trans; [| exact Heq].
    cbn [pm25_eq computeHazard d_add d_mul Q_Double].
    repeat apply Qplus_le_compat; try assumption;
      apply weighted_monotone; assumption.
  - eapply Qle_trans; [| exact Hrisk].
    apply r_bee_monotone_joint; assumption.
Qed.

Lemma within_viability_downward_closed_witness :
  within_viability
    (computeHazard Samples.thermal_guard Samples.hot_state 0%Q) = true.
Proof.
  apply (within_viability_downward_closed Samples.thermal_guard
           Samples.hot_state (mkState5D 2 8 4 25 10)%Q 0%Q 4%Q).
  - repeat split; vm_compute; discriminate.
  - vm_compute; discriminate.
  - vm_compute; discriminate.
  - vm_compute; discriminate.
  - vm_compute; discriminate.
  - vm_compute. reflexivity.
Defined.

(** ** Convexity *)

Section Convexity.

Local Open Scope Q_scope.

Lemma inPolytope_from_true_wf {D : Type} {num : Double D}
    (P : Polytope D) (x : array5 D) :
  forall rows i,
    (i <= length (b P))%nat ->
    inPolytope_from P x rows i = Some true ->
    (i + length rows <= length (b P))%nat.
Proof.
  induction rows as [| row rest IH]; intros i Hi Htrue; simpl in *.
  - lia.
  - destruct (nth_error (b P) i) as [bi |] eqn:Hb; [| discriminate].
    assert (i < length (b P))%nat by (apply nth_error_Some; congruence).
    destruct (d_ltb (d_add bi d_eps) (dot row x)); [discriminate |].
    assert (Hs : (S i <= length (b P))%nat) by lia.
    specialize (IH (S i) Hs Htrue). lia.
Qed.

(** A point is only accepted after every row has found its bound. *)
Lemma inPolytope_true_wf {D : Type} {num : Double D}
    (P : Polytope D) (s : State5D D) :
  inPolytope P s = Some true -> Polytope_wf P.
Proof.
  intros Htrue. unfold Polytope_wf.
  apply (inPolytope_from_true_wf P (state_vec s) (A P) 0); [lia | exact Htrue].
Qed.

Lemma row_dot_x_mix (row : array5 Q) (t : Q) (s1 s2 : State5D Q) :
  row_dot_x row (state_vec (mix t s1 s2))
  == t * row_dot_x row (state_vec s1)
     + (1 - t) * row_dot_x row (state_vec s2).
Proof.
  unfold row_dot_x, mix, state_vec. cbn. ring.
Qed.

Lemma satisfies_mix (P : Polytope Q) (t : Q) (s1 s2 : State5D Q) :
  0 <= t <= 1 -> satisfies P s1 -> satisfies P s2 ->
  satisfies P (mix t s1 s2).
Proof.
  intros [Ht0 Ht1] H1 H2 i row bound Hrow Hb.
  specialize (H1 i row bound Hrow Hb). specialize (H2 i row bound Hrow Hb).
  rewrite row_dot_x_mix.
  assert (Ht' : 0 <= 1 - t) by lra.
  pose proof (weighted_monotone t _ _ Ht0 H1) as M1.
  pose proof (weighted_monotone (1 - t) _ _ Ht' H2) as M2.
  lra.
Qed.

Lemma classifyRegion_forage_iff {D : Type} {num : Double D}
    (g : BeePolytopeGuard D) (s : State5D D) :
  classifyRegion g s = Some FORAGE_SAFE
  <-> inPolytope (foragePoly_ g) s = Some true.
Proof.
  unfold classifyRegion.
  destruct (inPolytope (foragePoly_ g) s) as [[|] |].
  - split; reflexivity.
  - destruct (inPolytope (retreatPoly_ g) s) as [[|] |];
      split; discriminate.
  - split; discriminate.
Qed.

(** What a result that allows foraging says about the call. *)
Lemma allow_foraging_inv (g : BeePolytopeGuard Q) (s : State5D Q) (voc : Q)
    (lim : BeeActuationLimits Q) :
  computeActuation g s voc = Some lim -> allow_foraging lim = true ->
  classifyRegion g s = Some FORAGE_SAFE
  /\ r_bee (computeHazard g s voc) < rBeeHardLimit_ g
  /\ r_bee (computeHazard g s voc) <= rBeeSoftLimit_ g.
Proof.
  intros Hlim Hallow.
  destruct (classifyRegion g s) as [rg |] eqn:Hrg;
    [| unfold computeActuation in Hlim; rewrite Hrg in Hlim; discriminate].
  destruct (computeActuation_tier_cases g s voc rg)
    as [Hstop | [(Hnf & Hlt & Hthr) | (Hfs & Hlt & Hle)]].
  - rewrite (computeActuation_hard_stop g s voc rg Hrg Hstop) in Hlim.
    injection Hlim as <-. discriminate Hallow.
  - rewrite (computeActuation_throttled g s voc rg Hrg Hnf Hlt Hthr) in Hlim.
    injection Hlim as <-. discriminate Hallow.
  - cbn [d_leb d_ltb Q_Double] in Hlt, Hle. q_tests.
    subst rg. repeat split; assumption.
Qed.

End Convexity.

(** A blend of two accepted states is accepted. *)
Lemma inPolytope_mix :
  forall (P : Polytope Q) (s1 s2 : State5D Q) (t : Q),
    (0 <= t <= 1)%Q ->
    inPolytope P s1 = Some true -> inPolytope P s2 = Some true ->
    inPolytope P (mix t s1 s2) = Some true.
Proof.
  intros P s1 s2 t Ht H1 H2.
  pose proof (inPolytope_true_wf P s1 H1) as Hwf.
  apply (inPolytope_true_iff_satisfies P _ Hwf).
  apply satisfies_mix; [exact Ht | |];
    apply (inPolytope_true_iff_satisfies P _ Hwf); assumption.
Qed.

(** X9 (exact arithmetic).
    The set of points a polytope accepts is convex: if [inPolytope]
    accepts two states it accepts every state on the segment between
    them. *)
Theorem inPolytope_convex :
  forall (P : Polytope Q) (s1 s2 : State5D Q) (t : Q),
    (0 <= t <= 1)%Q ->
    inPolytope P s1 = Some true -> inPolytope P s2 = Some true ->
    inPolytope P (mix t s1 s2) = Some true.
Proof.
  exact inPolytope_mix.
Qed.

Lemma inPolytope_convex_witness :
  inPolytope (foragePoly_ Samples.thermal_guard)
             (mix (1 # 4) Samples.mild_state (mkState5D 60 0 0 (-5) 0)%Q)
  = Some true.
Proof.
  apply inPolytope_convex.
  - split; vm_compute; discriminate.
  - vm_compute. reflexivity.
  - vm_compute. reflexivity.
Defined.

(** X10 (exact arithmetic).
    The inputs that get full operation form a convex set: if
    [computeActuation] allows foraging for two inputs, then for every blend
    of the two it returns forage-safe, duty scale [1.0] and foraging
    allowed.  In binary64 the blend and its risk index are rounded, so a
    blend of two inputs at the edge of full operation can fall outside. *)
Theorem full_operation_convex :
  forall (g : BeePolytopeGuard Q) (s1 s2 : State5D Q) (voc1 voc2 t : Q)
         (lim1 lim2 : BeeActuationLimits Q),
    (0 <= t <= 1)%Q ->
    computeActuation g s1 voc1 = Some lim1 -> allow_foraging lim1 = true ->
    computeActuation g s2 voc2 = Some lim2 -> allow_foraging lim2 = true ->
    computeActuation g (mix t s1 s2) (t * voc1 + (1 - t) * voc2)%Q
    = Some {| region := FORAGE_SAFE; duty_scale := 1%Q;
              allow_foraging := true |}.
Proof.
  intros g s1 s2 voc1 voc2 t lim1 lim2 Ht Hl1 Ha1 Hl2 Ha2.
  destruct (allow_foraging_inv g s1 voc1 lim1 Hl1 Ha1) as (Hr1 & Hh1 & Hs1).
  destruct (allow_foraging_inv g s2 voc2 lim2 Hl2 Ha2) as (Hr2 & Hh2 & Hs2).
  apply classifyRegion_forage_iff in Hr1, Hr2.
  assert (Hrg : classifyRegion g (mix t s1 s2) = Some FORAGE_SAFE).
  { apply classifyRegion_forage_iff. apply inPolytope_mix; assumption. }
  destruct (indices_of_mix g s1 s2 voc1 voc2 t) as [Hmix _].
  destruct Ht as [Ht0 Ht1].
  assert (Ht' : (0 <= 1 - t)%Q) by lra.
  pose proof (weighted_monotone t _ _ Ht0 Hs1) as M1.
  pose proof (weighted_monotone (1 - t) _ _ Ht' Hs2) as M2.
  pose proof (weighted_monotone t _ _ Ht0 (Qlt_le_weak _ _ Hh1)) as N1.
  pose proof (weighted_monotone (1 - t) _ _ Ht' (Qlt_le_weak _ _ Hh2)) as N2.
  apply (computeActuation_full g _ _ FORAGE_SAFE Hrg eq_refl).
  - cbn [d_leb Q_Double]. apply Qle_bool_false_iff. rewrite Hmix.
    destruct (Qlt_le_dec 0 t) as [Hpos | Hzero].
    + assert (t * r_bee (computeHazard g s1 voc1)
              < t * rBeeHardLimit_ g)%Q.
      { rewrite (Qmult_comm t), (Qmult_comm t).
        apply Qmult_lt_compat_r; assumption. }
      lra.
    + assert (Hteq : (t == 0)%Q) by lra.
      rewrite Hteq. lra.
  - cbn [d_ltb Q_Double]. apply Qltb_false_iff. rewrite Hmix. lra.
Qed.

Lemma full_operation_convex_witness :
  computeActuation Samples.thermal_guard
    (mix (1 # 2) Samples.mild_state (mkState5D 0 0 0 10 0)%Q)
    ((1 # 2) * 64 + (1 - (1 # 2)) * 0)%Q
  = Some {| region := FORAGE_SAFE; duty_scale := 1%Q;
            allow_foraging := true |}.
Proof.
  eapply full_operation_convex.
  - split; vm_compute; discriminate.
  - vm_compute. reflexivity.
  - reflexivity.
  - vm_compute. reflexivity.
  - reflexivity.
Defined.

(** ** The duty scale *)

Section DutyScale.

Local Open Scope Q_scope.

(** [std::max(0.0, y)] is never negative, whatever [y] is. *)
Lemma d_max_zero_nonneg (y : Q) : 0 <= d_max 0 y.
Proof.
  unfold d_max. cbn [d_ltb Q_Double].
  destruct (Qltb 0 y) eqn:Htest; q_tests;
    [apply Qlt_le_weak; exact Htest | apply Qle_refl].
Qed.

Lemma d_max_zero_monotone (x y : Q) : x <= y -> d_max 0 x <= d_max 0 y.
Proof.
  intros Hxy. unfold d_max. cbn [d_ltb Q_Double].
  destruct (Qltb 0 x) eqn:Hx; destruct (Qltb 0 y) eqn:Hy; q_tests; lra.
Qed.

(** The clipped ramp falls as the risk grows, for a positive hard limit. *)
Lemma alpha_antitone (hard r1 r2 : Q) :
  0 < hard -> r1 <= r2 ->
  d_max 0 (1 - r2 / hard) <= d_max 0 (1 - r1 / hard).
Proof.
  intros Hpos Hle. apply d_max_zero_monotone.
  assert (r1 / hard <= r2 / hard).
  { unfold Qdiv. apply Qmult_le_compat_r; [exact Hle |].
    apply Qinv_le_0_compat, Qlt_le_weak, Hpos. }
  lra.
Qed.

(** The duty scale as a function of the classified region and the risk
    index, in order facts. *)
Lemma computeActuation_by_tier (g : BeePolytopeGuard Q) (s : State5D Q)
    (voc : Q) (rg : RegionClass) :
  classifyRegion g s = Some rg ->
  let r := r_bee (computeHazard g s voc) in
  (* hard stop *)
  ((rg = FORBIDDEN \/ rBeeHardLimit_ g <= r)
   /\ computeActuation g s voc
      = Some {| region := rg; duty_scale := 0; allow_foraging := false |})
  \/
  (* throttled *)
  (rg <> FORBIDDEN /\ r < rBeeHardLimit_ g
   /\ (rg = RETREAT_ONLY \/ rBeeSoftLimit_ g < r)
   /\ computeActuation g s voc
      = Some {| region := rg;
                duty_scale := d_max 0 (1 - r / rBeeHardLimit_ g) * (1 # 2);
                allow_foraging := false |})
  \/
  (* full operation *)
  (rg = FORAGE_SAFE /\ r < rBeeHardLimit_ g /\ r <= rBeeSoftLimit_ g
   /\ computeActuation g s voc
      = Some {| region := rg; duty_scale := 1; allow_foraging := true |}).
Proof.
  intros Hrg r. subst r.
  destruct (computeActuation_tier_cases g s voc rg)
    as [Hstop | [(Hnf & Hlt & Hthr) | (Hfs & Hlt & Hle)]].
  - left. split.
    + destruct Hstop as [Hf | Hge]; [left; exact Hf | right].
      cbn [d_leb Q_Double] in Hge. q_tests. exact Hge.
    + apply (computeActuation_hard_stop g s voc rg Hrg Hstop).
  - right; left.
    pose proof (computeActuation_throttled g s voc rg Hrg Hnf Hlt Hthr)
      as Heq.
    cbn [d_leb d_ltb Q_Double] in Hlt, Hthr.
    repeat split; try assumption.
    + q_tests. exact Hlt.
    + destruct Hthr as [Hret | Hgt]; [left; exact Hret | right].
      q_tests. exact Hgt.
  - right; right.
    pose proof (computeActuation_full g s voc rg Hrg Hfs Hlt Hle) as Heq.
    cbn [d_leb d_ltb Q_Double] in Hlt, Hle. q_tests.
    repeat split; assumption.
Qed.

End DutyScale.

(** X11. The duty scale is never negative, for any readings (negative ones
    included) and any configuration: the clip [std::max(0.0, ...)] bounds
    the throttled scale from below, whatever the division returns. *)
Theorem duty_scale_nonneg :
  forall (g : BeePolytopeGuard Q) (s : State5D Q) (voc : Q),
    guard_wf g ->
    exists lim,
      computeActuation g s voc = Some lim /\ (0 <= duty_scale lim)%Q.
Proof.
  intros g s voc Hwf.
  destruct (classifyRegion_total g s Hwf) as [rg Hrg].
  destruct (computeActuation_by_tier g s voc rg Hrg)
    as [(_ & Heq) | [(_ & _ & _ & Heq) | (_ & _ & _ & Heq)]];
    rewrite Heq; eexists; (split; [reflexivity |]);
    cbn [duty_scale]; try discriminate.
  pose proof (d_max_zero_nonneg
                (1 - r_bee (computeHazard g s voc) / rBeeHardLimit_ g)).
  lra.
Qed.

Lemma duty_scale_nonneg_witness :
  exists lim,
    computeActuation Samples.thermal_guard Samples.deep_drift_state 0%Q
    = Some lim
    /\ (0 <= duty_scale lim)%Q.
Proof.
  apply duty_scale_nonneg. split; cbv; lia.
Defined.

(** X12. For physically meaningful inputs the documented ranges hold: with
    non-negative weights and non-negative readings the duty scale lies in
    [0, 1], and it is at most [0.5] unless foraging is allowed. *)
Theorem duty_scale_unit_interval_valid_inputs :
  forall (g : BeePolytopeGuard Q) (s : State5D Q) (voc : Q),
    guard_wf g -> weights_nonneg g -> readings_nonneg s voc ->
    exists lim,
      computeActuation g s voc = Some lim
      /\ (0 <= duty_scale lim <= 1)%Q
      /\ (allow_foraging lim = false -> (duty_scale lim <= 1 # 2)%Q).
Proof.
  intros g s voc Hwf Hw Hr.
  pose proof (risk_nonneg_of_nonneg_inputs g s voc Hw Hr) as Hnn.
  destruct (classifyRegion_total g s Hwf) as [rg Hrg].
  destruct (computeActuation_by_tier g s voc rg Hrg)
    as [(_ & Heq) | [(_ & Hlt & _ & Heq) | (_ & _ & _ & Heq)]];
    rewrite Heq; eexists; (split; [reflexivity |]);
    cbn [duty_scale allow_foraging].
  - split; [split; discriminate | intros _; discriminate].
  - destruct (alpha_bounds _ _ Hnn Hlt) as [Ha0 Ha1].
    split; [split; lra | intros _; lra].
  - split; [split; discriminate | intros Habs; discriminate Habs].
Qed.

Lemma duty_scale_unit_interval_valid_inputs_witness :
  exists lim,
    computeActuation Samples.thermal_guard Samples.hot_state 64%Q = Some lim
    /\ (0 <= duty_scale lim <= 1)%Q
    /\ (allow_foraging lim = false -> (duty_scale lim <= 1 # 2)%Q).
Proof.
  apply duty_scale_unit_interval_valid_inputs.
  - split; cbv; lia.
  - repeat split; vm_compute; discriminate.
  - repeat split; vm_compute; discriminate.
Defined.

(** Same region, higher risk: no larger duty scale, no new permission. *)
Lemma duty_antitone_same_region :
  forall (g : BeePolytopeGuard Q) (s1 s2 : State5D Q) (voc1 voc2 : Q),
    guard_wf g ->
    (0 < rBeeHardLimit_ g)%Q -> (0 <= rBeeSoftLimit_ g)%Q ->
    classifyRegion g s1 = classifyRegion g s2 ->
    (r_bee (computeHazard g s1 voc1) <= r_bee (computeHazard g s2 voc2))%Q ->
    exists lim1 lim2,
      computeActuation g s1 voc1 = Some lim1
      /\ computeActuation g s2 voc2 = Some lim2
      /\ (duty_scale lim2 <= duty_scale lim1)%Q
      /\ (allow_foraging lim2 = true -> allow_foraging lim1 = true).
Proof.
  intros g s1 s2 voc1 voc2 Hwf Hhard Hsoft Hsame Hle.
  destruct (classifyRegion_total g s1 Hwf) as [rg Hrg1].
  assert (Hrg2 : classifyRegion g s2 = Some rg) by congruence.
  pose proof (d_max_zero_nonneg
                (1 - r_bee (computeHazard g s1 voc1) / rBeeHardLimit_ g))
    as Hnn1.
  pose proof (alpha_antitone _ _ _ Hhard Hle) as Hanti.
  destruct (computeActuation_by_tier g s2 voc2 rg Hrg2)
    as [(Hstop2 & Heq2) | [(Hnf2 & Hlt2 & Hthr2 & Heq2)
                          | (Hfs2 & Hlt2 & Hle2 & Heq2)]];
  destruct (computeActuation_by_tier g s1 voc1 rg Hrg1)
    as [(Hstop1 & Heq1) | [(Hnf1 & Hlt1 & Hthr1 & Heq1)
                          | (Hfs1 & Hlt1 & Hle1 & Heq1)]];
  rewrite Heq1, Heq2; do 2 eexists;
  (split; [reflexivity |]); (split; [reflexivity |]);
  cbn [duty_scale allow_foraging];
  try (split; [| intros Habs; first [discriminate Habs | reflexivity]]).
  (* call 2 hard-stopped: its duty scale is 0 *)
  - apply Qle_refl.
  - lra.
  - discriminate.
  (* call 2 throttled *)
  - exfalso. destruct Hstop1 as [Hf | Hge]; [contradiction | lra].
  - lra.
  - assert (Hr2 : (0 <= r_bee (computeHazard g s2 voc2))%Q).
    { destruct Hthr2 as [Hret | Hgt]; [congruence | lra]. }
    destruct (alpha_bounds _ _ Hr2 Hlt2) as [_ Ha1]. lra.
  (* call 2 in full operation *)
  - exfalso. destruct Hstop1 as [Hf | Hge]; [congruence | lra].
  - exfalso. destruct Hthr1 as [Hret | Hgt]; [congruence | lra].
  - apply Qle_refl.
Qed.

(** X13. More risk never buys more duty.  For a positive hard limit and a
    non-negative soft limit, of two calls that classify into the same
    region the one with the higher risk index gets a duty scale no larger,
    and is allowed to forage only if the other is. *)
Theorem duty_scale_antitone_in_risk :
  forall (g : BeePolytopeGuard Q) (s1 s2 : State5D Q) (voc1 voc2 : Q),
    guard_wf g ->
    (0 < rBeeHardLimit_ g)%Q -> (0 <= rBeeSoftLimit_ g)%Q ->
    classifyRegion g s1 = classifyRegion g s2 ->
    (r_bee (computeHazard g s1 voc1) <= r_bee (computeHazard g s2 voc2))%Q ->
    exists lim1 lim2,
      computeActuation g s1 voc1 = Some lim1
      /\ computeActuation g s2 voc2 = Some lim2
      /\ (duty_scale lim2 <= duty_scale lim1)%Q
      /\ (allow_foraging lim2 = true -> allow_foraging lim1 = true).
Proof.
  exact duty_antitone_same_region.
Qed.

Lemma duty_scale_antitone_in_risk_witness :
  exists lim1 lim2,
    computeActuation Samples.thermal_guard Samples.hot_state 0%Q = Some lim1
    /\ computeActuation Samples.thermal_guard Samples.hot_state 512%Q
       = Some lim2
    /\ (duty_scale lim2 <= duty_scale lim1)%Q
    /\ (allow_foraging lim2 = true -> allow_foraging lim1 = true).
Proof.
  apply duty_scale_antitone_in_risk.
  - split; cbv; lia.
  - reflexivity.
  - vm_compute; discriminate.
  - reflexivity.
  - vm_compute; discriminate.
Defined.

(** X14 (exact arithmetic).
    For one and the same state, a higher VOC reading never raises the
    duty scale and never turns foraging on (non-negative VOC weight,
    positive hard limit, non-negative soft limit).  Binary64 departs from
    this when the VOC ratio overflows under a zero weight
    ([overflow_replay_binary64]). *)
Theorem more_voc_never_more_duty :
  forall (g : BeePolytopeGuard Q) (s : State5D Q) (voc_lo voc_hi : Q),
    guard_wf g ->
    (0 < rBeeHardLimit_ g)%Q -> (0 <= rBeeSoftLimit_ g)%Q ->
    (0 <= w_voc (params_ g))%Q ->
    (voc_lo <= voc_hi)%Q ->
    exists lim_lo lim_hi,
      computeActuation g s voc_lo = Some lim_lo
      /\ computeActuation g s voc_hi = Some lim_hi
      /\ region lim_lo = region lim_hi
      /\ (duty_scale lim_hi <= duty_scale lim_lo)%Q
      /\ (allow_foraging lim_hi = true -> allow_foraging lim_lo = true).
Proof.
  intros g s voc_lo voc_hi Hwf Hhard Hsoft Hw Hle.
  assert (Hrisk : (r_bee (computeHazard g s voc_lo)
                   <= r_bee (computeHazard g s voc_hi))%Q).
  { cbn [r_bee computeHazard d_add d_mul Q_Double].
    apply Qplus_le_compat; [apply Qle_refl |].
    apply weighted_monotone; [exact Hw |].
    unfold r_voc. cbn [d_ltb d_div d_zero Q_Double].
    apply guarded_ratio_monotone. exact Hle. }
  destruct (duty_antitone_same_region g s s voc_lo voc_hi Hwf Hhard
              Hsoft eq_refl Hrisk)
    as (lim_lo & lim_hi & Hlo & Hhi & Hduty & Hallow).
  exists lim_lo, lim_hi. repeat split; try assumption.
  destruct (classifyRegion_total g s Hwf) as [rg Hrg].
  destruct (computeActuation_region g s voc_lo rg Hrg) as (l1 & E1 & R1).
  destruct (computeActuation_region g s voc_hi rg Hrg) as (l2 & E2 & R2).
  congruence.
Qed.

Lemma more_voc_never_more_duty_witness :
  exists lim_lo lim_hi,
    computeActuation Samples.thermal_guard Samples.mild_state 0%Q
    = Some lim_lo
    /\ computeActuation Samples.thermal_guard Samples.mild_state 2048%Q
       = Some lim_hi
    /\ region lim_lo = region lim_hi
    /\ (duty_scale lim_hi <= duty_scale lim_lo)%Q
    /\ (allow_foraging lim_hi = true -> allow_foraging lim_lo = true).
Proof.
  apply more_voc_never_more_duty.
  - split; cbv; lia.
  - reflexivity.
  - vm_compute; discriminate.
  - vm_compute; discriminate.
  - vm_compute; discriminate.
Defined.

(** X15 (exact arithmetic).
    How the viability flag and the actuation agree.  When the soft
    limit is below the hard limit, a forage-safe state whose viability flag
    is set gets full operation.  Conversely, whenever foraging is allowed
    the risk index is within the soft limit, so the flag is set as soon as
    the PM2.5-equivalent is within its corridor.  In binary64 the converse
    fails for a NaN risk index ([overflow_replay_binary64]). *)
Theorem viability_and_full_operation :
  forall (g : BeePolytopeGuard Q) (s : State5D Q) (voc : Q),
    (classifyRegion g s = Some FORAGE_SAFE ->
     (rBeeSoftLimit_ g < rBeeHardLimit_ g)%Q ->
     within_viability (computeHazard g s voc) = true ->
     computeActuation g s voc
     = Some {| region := FORAGE_SAFE; duty_scale := 1%Q;
               allow_foraging := true |})
    /\
    (forall lim : BeeActuationLimits Q,
       computeActuation g s voc = Some lim ->
       allow_foraging lim = true ->
       (pm25_eq (computeHazard g s voc)
        <= pm25_eq_viability_ug_m3 (params_ g))%Q ->
       within_viability (computeHazard g s voc) = true).
Proof.
  intros g s voc. split.
  - intros Hrg Hlimits Hviab.
    apply within_viability_iff_aux in Hviab. destruct Hviab as [_ Hrisk].
    apply (computeActuation_full g s voc FORAGE_SAFE Hrg eq_refl).
    + cbn [d_leb Q_Double]. apply Qle_bool_false_iff.
      eapply Qle_lt_trans; eassumption.
    + cbn [d_ltb Q_Double]. apply Qltb_false_iff. exact Hrisk.
  - intros lim Hlim Hallow Heq.
    destruct (allow_foraging_inv g s voc lim Hlim Hallow) as (_ & _ & Hsoft).
    apply within_viability_iff_aux. split; assumption.
Qed.

Lemma viability_and_full_operation_witness :
  computeActuation Samples.thermal_guard (mkState5D 2 8 4 25 10)%Q 4%Q
  = Some {| region := FORAGE_SAFE; duty_scale := 1%Q;
            allow_foraging := true |}
  /\ within_viability
       (computeHazard Samples.thermal_guard (mkState5D 2 8 4 25 10)%Q 4%Q)
     = true.
Proof.
  pose proof (viability_and_full_operation Samples.thermal_guard
                (mkState5D 2 8 4 25 10)%Q 4%Q) as [Hfull Hflag].
  assert (Hrun : computeActuation Samples.thermal_guard
                   (mkState5D 2 8 4 25 10)%Q 4%Q
                 = Some {| region := FORAGE_SAFE; duty_scale := 1%Q;
                           allow_foraging := true |}).
  { apply Hfull; reflexivity. }
  split; [exact Hrun |].
  apply (Hflag _ Hrun eq_refl). vm_compute; discriminate.
Defined.

(** X16. A misordered pair of limits removes the ramp: when the hard limit
    is not above the soft limit, a forage-safe state is never throttled.
    It is either hard-stopped (duty scale [0.0]) or in full operation (duty
    scale [1.0]), according to whether the risk index reaches the hard
    limit. *)
Theorem misordered_limits_never_throttle_forage :
  forall (g : BeePolytopeGuard Q) (s : State5D Q) (voc : Q),
    classifyRegion g s = Some FORAGE_SAFE ->
    (rBeeHardLimit_ g <= rBeeSoftLimit_ g)%Q ->
    ((rBeeHardLimit_ g <= r_bee (computeHazard g s voc))%Q
     /\ computeActuation g s voc
        = Some {| region := FORAGE_SAFE; duty_scale := 0%Q;
                  allow_foraging := false |})
    \/
    ((r_bee (computeHazard g s voc) < rBeeHardLimit_ g)%Q
     /\ computeActuation g s voc
        = Some {| region := FORAGE_SAFE; duty_scale := 1%Q;
                  allow_foraging := true |}).
Proof.
  intros g s voc Hrg Hlimits.
  destruct (computeActuation_by_tier g s voc FORAGE_SAFE Hrg)
    as [(Hstop & Heq) | [(_ & Hlt & Hthr & _) | (_ & Hlt & _ & Heq)]].
  - left. split; [| exact Heq].
    destruct Hstop as [Habs | Hge]; [discriminate Habs | exact Hge].
  - exfalso. destruct Hthr as [Habs | Hgt]; [discriminate Habs |]. lra.
  - right. split; assumption.
Qed.

Lemma misordered_limits_never_throttle_forage_witness :
  computeActuation Samples.misordered_guard Samples.mild_state 1024%Q
  = Some {| region := FORAGE_SAFE; duty_scale := 0%Q;
            allow_foraging := false |}.
Proof.
  destruct (misordered_limits_never_throttle_forage Samples.misordered_guard
              Samples.mild_state 1024%Q eq_refl)
    as [[_ Heq] | [Hlt _]].
  - vm_compute; discriminate.
  - exact Heq.
  - exfalso. revert Hlt. vm_compute. discriminate.
Defined.

(** ** NaN readings in binary64 *)

Section NaN.

Local Open Scope float_scope.

(** [x] is the NaN of the binary64 specification. *)
Local Notation "'isNaN' x" := (Prim2SF x = S754_nan) (at level 10).

Lemma SFcompare_refl_not_nan (x : spec_float) :
  x <> S754_nan -> SFcompare x x = Some Eq.
Proof.
  destruct x as [s | s | | s m e]; intros Hx; simpl.
  - reflexivity.
  - destruct s; reflexivity.
  - contradiction Hx; reflexivity.
  - rewrite Z.compare_refl, Pos.compare_cont_refl.
    destruct s; reflexivity.
Qed.

Lemma is_nan_spec (x : float) : is_nan x = true -> isNaN x.
Proof.
  unfold is_nan. rewrite eqb_spec. unfold SFeqb. intros Hx.
  destruct (Prim2SF x) as [s | s | | s m e] eqn:Ex; [| | reflexivity |];
    exfalso; rewrite SFcompare_refl_not_nan in Hx by discriminate;
    discriminate Hx.
Qed.

Lemma nan_mul_r (x y : float) : isNaN y -> isNaN (x * y).
Proof.
  intros Hy. rewrite mul_spec. unfold SF64mul, SFmul. rewrite Hy.
  destruct (Prim2SF x); reflexivity.
Qed.

Lemma nan_add_l (x y : float) : isNaN x -> isNaN (x + y).
Proof.
  intros Hx. rewrite add_spec. unfold SF64add, SFadd. rewrite Hx.
  reflexivity.
Qed.

Lemma nan_add_r (x y : float) : isNaN y -> isNaN (x + y).
Proof.
  intros Hy. rewrite add_spec. unfold SF64add, SFadd. rewrite Hy.
  destruct (Prim2SF x); reflexivity.
Qed.

Lemma nan_div_l (x y : float) : isNaN x -> isNaN (x / y).
Proof.
  intros Hx. rewrite div_spec. unfold SF64div, SFdiv. rewrite Hx.
  reflexivity.
Qed.

(** Every ordered comparison with a NaN is false. *)
Lemma nan_ltb_r (x y : float) : isNaN y -> (x <? y) = false.
Proof.
  intros Hy. rewrite ltb_spec. unfold SFltb, SFcompare. rewrite Hy.
  destruct (Prim2SF x); reflexivity.
Qed.

Lemma nan_ltb_l (x y : float) : isNaN x -> (x <? y) = false.
Proof.
  intros Hx. rewrite ltb_spec. unfold SFltb, SFcompare. rewrite Hx.
  reflexivity.
Qed.

Lemma nan_leb_l (x y : float) : isNaN x -> (x <=? y) = false.
Proof.
  intros Hx. rewrite leb_spec. unfold SFleb, SFcompare. rewrite Hx.
  reflexivity.
Qed.

Lemma nan_leb_r (x y : float) : isNaN y -> (x <=? y) = false.
Proof.
  intros Hy. rewrite leb_spec. unfold SFleb, SFcompare. rewrite Hy.
  destruct (Prim2SF x); reflexivity.
Qed.

(** One NaN coordinate makes every dot product NaN, whatever the row. *)
Lemma dot_nan (row : array5 float) (s : State5D float) :
  has_nan s = true -> isNaN (dot row (state_vec s)).
Proof.
  unfold has_nan. rewrite !orb_true_iff.
  unfold dot. cbn [fold_left seq get5 state_vec e0 e1 e2 e3 e4 d_add d_mul
                   d_zero F64_Double].
  intros [[[[H | H] | H] | H] | H]; apply is_nan_spec in H.
  - do 4 apply nan_add_l. apply nan_add_r, nan_mul_r, H.
  - do 3 apply nan_add_l. apply nan_add_r, nan_mul_r, H.
  - do 2 apply nan_add_l. apply nan_add_r, nan_mul_r, H.
  - apply nan_add_l. apply nan_add_r, nan_mul_r, H.
  - apply nan_add_r, nan_mul_r, H.
Qed.

Lemma inPolytope_nan (P : Polytope float) (s : State5D float) :
  Polytope_wf P -> has_nan s = true -> inPolytope P s = Some true.
Proof.
  intros Hwf Hnan. unfold inPolytope.
  apply inPolytope_from_true_iff; [exact Hwf |].
  intros k row bk _ _. cbn [d_ltb d_add d_eps F64_Double].
  apply nan_ltb_r, dot_nan, Hnan.
Qed.

(** A NaN pollutant with a positive LC50 makes the risk index NaN. *)
Lemma r_bee_nan (g : BeePolytopeGuard float) (s : State5D float)
    (voc : float) :
  nan_pollutant g s = true -> isNaN (r_bee (computeHazard g s voc)).
Proof.
  unfold nan_pollutant. rewrite !orb_true_iff, !andb_true_iff.
  cbn [r_bee computeHazard d_add d_mul F64_Double].
  intros [[[H Hlc] | [H Hlc]] | [H Hlc]]; apply is_nan_spec in H.
  - do 3 apply nan_add_l. apply nan_mul_r.
    unfold r_pm. cbn [d_ltb d_zero d_div F64_Double]. rewrite Hlc.
    apply nan_div_l, H.
  - do 2 apply nan_add_l. apply nan_add_r, nan_mul_r.
    unfold r_nox. cbn [d_ltb d_zero d_div F64_Double]. rewrite Hlc.
    apply nan_div_l, H.
  - apply nan_add_l. apply nan_add_r, nan_mul_r.
    unfold r_o3. cbn [d_ltb d_zero d_div F64_Double]. rewrite Hlc.
    apply nan_div_l, H.
Qed.

Lemma nan_pollutant_has_nan (g : BeePolytopeGuard float)
    (s : State5D float) :
  nan_pollutant g s = true -> has_nan s = true.
Proof.
  unfold nan_pollutant, has_nan.
  rewrite !orb_true_iff, !andb_true_iff. tauto.
Qed.

Lemma classifyRegion_nan (g : BeePolytopeGuard float)
    (s : State5D float) :
  Polytope_wf (foragePoly_ g) -> has_nan s = true ->
  classifyRegion g s = Some FORAGE_SAFE.
Proof.
  intros Hwf Hnan. apply classifyRegion_forage_iff.
  apply inPolytope_nan; assumption.
Qed.

End NaN.

(** X17. In binary64 a state with a NaN in any of its five fields is
    classified forage-safe by every guard whose forage polytope has a bound
    for each row: the NaN makes every dot product NaN, and the test
    [dot > b + 1e-9] is false on NaN. *)
Theorem nan_state_is_forage_safe :
  forall (g : BeePolytopeGuard float) (s : State5D float),
    Polytope_wf (foragePoly_ g) ->
    has_nan s = true ->
    classifyRegion g s = Some FORAGE_SAFE.
Proof.
  intros g s Hwf Hnan. apply classifyRegion_nan; assumption.
Qed.

Lemma nan_state_is_forage_safe_witness :
  classifyRegion Samples.thermal_guard_f64 Samples.nan_state_f64
  = Some FORAGE_SAFE.
Proof.
  apply nan_state_is_forage_safe.
  - cbv. lia.
  - reflexivity.
Defined.

(** X18. In binary64 a NaN pollutant reading (PM2.5, NOx or O3, with the
    LC50 of its channel positive) is waved through: the risk index is NaN,
    neither limit test fires, and [computeActuation] returns forage-safe,
    duty scale [1.0] and foraging allowed, whatever the other readings and
    the limits are, while the viability flag of the same call is false. *)
Theorem nan_pollutant_gets_full_operation :
  forall (g : BeePolytopeGuard float) (s : State5D float) (voc : float),
    Polytope_wf (foragePoly_ g) ->
    nan_pollutant g s = true ->
    computeActuation g s voc
    = Some {| region := FORAGE_SAFE; duty_scale := 1%float;
              allow_foraging := true |}
    /\ within_viability (computeHazard g s voc) = false.
Proof.
  intros g s voc Hwf Hnan.
  pose proof (r_bee_nan g s voc Hnan) as Hrisk.
  pose proof (classifyRegion_nan g s Hwf
                (nan_pollutant_has_nan g s Hnan)) as Hrg.
  split.
  - apply (computeActuation_full g s voc FORAGE_SAFE Hrg eq_refl).
    + cbn [d_leb F64_Double]. apply nan_leb_r, Hrisk.
    + cbn [d_ltb F64_Double]. apply nan_ltb_r, Hrisk.
  - cbn [within_viability computeHazard]. apply andb_false_iff. right.
    cbn [d_leb F64_Double]. apply nan_leb_l. exact Hrisk.
Qed.

Lemma nan_pollutant_gets_full_operation_witness :
  computeActuation Samples.thermal_guard_f64 Samples.nan_state_f64 0%float
  = Some {| region := FORAGE_SAFE; duty_scale := 1%float;
            allow_foraging := true |}
  /\ within_viability
       (computeHazard Samples.thermal_guard_f64 Samples.nan_state_f64
                      0%float)
     = false.
Proof.
  apply nan_pollutant_gets_full_operation.
  - cbv. lia.
  - reflexivity.
Defined.

(** ** The unguarded division by the hard limit *)

Section HardLimitDivision.

Local Open Scope Q_scope.

(** Over the rationals, for a positive hard limit the clip of the throttled
    tier is never active; for a negative one it always is. *)
Lemma alpha_positive_hard (risk hard : Q) :
  0 < hard -> risk < hard ->
  d_max 0 (1 - risk / hard)%Q == 1 - risk / hard
  /\ 0 < 1 - risk / hard.
Proof.
  intros Hpos Hlt.
  assert (Hdiv : risk / hard < 1).
  { apply Qlt_shift_div_r; [exact Hpos |]. rewrite Qmult_1_l. exact Hlt. }
  assert (Hramp : 0 < 1 - risk / hard) by lra.
  split; [| exact Hramp].
  unfold d_max. cbn [d_ltb Q_Double].
  apply Qltb_true_iff in Hramp. rewrite Hramp. reflexivity.
Qed.

Lemma alpha_negative_hard (risk hard : Q) :
  hard < 0 -> risk < hard -> d_max 0 (1 - risk / hard)%Q = 0.
Proof.
  intros Hneg Hlt.
  assert (Hdiv : 1 <= risk / hard).
  { setoid_replace (risk / hard) with ((- risk) / (- hard))
      by (field; lra).
    apply Qle_shift_div_l; lra. }
  unfold d_max. cbn [d_ltb Q_Double].
  assert (Htest : Qltb 0 (1 - risk / hard) = false)
    by (apply Qltb_false_iff; lra).
  rewrite Htest. reflexivity.
Qed.

End HardLimitDivision.

(** X19. What the clip of the throttled tier does.  With a positive hard
    limit it is never active: a throttled call gets the plain ramp
    [(1 - risk/hard) * 0.5], which is strictly positive.  With a negative
    hard limit it is always active: every throttled call gets duty scale
    zero. *)
Theorem throttled_clip_by_sign_of_hard_limit :
  forall (g : BeePolytopeGuard Q) (s : State5D Q) (voc : Q)
         (rg : RegionClass),
    classifyRegion g s = Some rg ->
    rg <> FORBIDDEN ->
    (r_bee (computeHazard g s voc) < rBeeHardLimit_ g)%Q ->
    rg = RETREAT_ONLY
    \/ (rBeeSoftLimit_ g < r_bee (computeHazard g s voc))%Q ->
    exists lim,
      computeActuation g s voc = Some lim
      /\ region lim = rg /\ allow_foraging lim = false
      /\ ((0 < rBeeHardLimit_ g)%Q ->
          (duty_scale lim
           == (1 - r_bee (computeHazard g s voc) / rBeeHardLimit_ g)
              * (1 # 2))%Q
          /\ (0 < duty_scale lim)%Q)
      /\ ((rBeeHardLimit_ g < 0)%Q -> (duty_scale lim == 0)%Q).
Proof.
  intros g s voc rg Hrg Hnf Hlt Hthr.
  assert (Hlt' : d_leb (rBeeHardLimit_ g)
                       (r_bee (computeHazard g s voc)) = false)
    by (apply Qle_bool_false_iff; exact Hlt).
  assert (Hthr' : rg = RETREAT_ONLY
                  \/ d_ltb (rBeeSoftLimit_ g)
                           (r_bee (computeHazard g s voc)) = true).
  { destruct Hthr as [Hret | Hgt]; [left; exact Hret | right].
    apply Qltb_true_iff. exact Hgt. }
  rewrite (computeActuation_throttled g s voc rg Hrg Hnf Hlt' Hthr').
  eexists. split; [reflexivity |].
  cbn [region allow_foraging duty_scale d_mul d_half d_zero d_one d_sub
       d_div Q_Double].
  split; [reflexivity |]. split; [reflexivity |]. split.
  - intros Hpos. destruct (alpha_positive_hard _ _ Hpos Hlt) as [Heq Hramp].
    rewrite Heq. split; [reflexivity | lra].
  - intros Hneg. rewrite (alpha_negative_hard _ _ Hneg Hlt). reflexivity.
Qed.

Lemma throttled_clip_by_sign_of_hard_limit_witness :
  exists lim,
    computeActuation Samples.thermal_guard Samples.hot_state 1024%Q
    = Some lim
    /\ (duty_scale lim == 1 # 4)%Q /\ (0 < duty_scale lim)%Q.
Proof.
  destruct (throttled_clip_by_sign_of_hard_limit Samples.thermal_guard
              Samples.hot_state 1024%Q RETREAT_ONLY)
    as (lim & Hlim & _ & _ & Hpos & _).
  - vm_compute. reflexivity.
  - discriminate.
  - reflexivity.
  - left. reflexivity.
  - exists lim. split; [exact Hlim |].
    destruct (Hpos eq_refl) as [Heq Hgt].
    split; [rewrite Heq; reflexivity | exact Hgt].
Defined.

Section HardLimitZero.

Local Open Scope float_scope.

Lemma ltb_zero_negative (x : float) :
  (x <? 0) = true ->
  Prim2SF x = S754_infinity true
  \/ exists m e, Prim2SF x = S754_finite true m e.
Proof.
  rewrite ltb_spec. unfold SFltb.
  replace (Prim2SF 0) with (S754_zero false) by reflexivity.
  destruct (Prim2SF x) as [sx | sx | | sx m e]; simpl;
    try discriminate; destruct sx; try discriminate; intros _.
  - left. reflexivity.
  - right. exists m, e. reflexivity.
Qed.

(** A negative number divided by [+0.0], taken from one, clipped and
    halved, is plus infinity. *)
Lemma throttle_scale_at_zero_hard_limit (r : float) :
  (r <? 0) = true ->
  d_max 0 (1 - r / 0) * 0.5 = infinity.
Proof.
  intros Hneg.
  assert (Hdiv : Prim2SF (r / 0) = S754_infinity true).
  { rewrite div_spec. unfold SF64div, SFdiv.
    replace (Prim2SF 0) with (S754_zero false) by reflexivity.
    destruct (ltb_zero_negative r Hneg) as [-> | (m & e & ->)];
      reflexivity. }
  assert (Hramp : Prim2SF (1 - r / 0) = S754_infinity false).
  { rewrite sub_spec. unfold SF64sub, SFsub. rewrite Hdiv.
    reflexivity. }
  assert (Hmax : d_max 0 (1 - r / 0) = 1 - r / 0).
  { unfold d_max. cbn [d_ltb F64_Double].
    rewrite ltb_spec. unfold SFltb. rewrite Hramp. reflexivity. }
  rewrite Hmax. apply Prim2SF_inj.
  rewrite mul_spec. unfold SF64mul, SFmul. rewrite Hramp. reflexivity.
Qed.

End HardLimitZero.

(** X20. The division by the hard limit is not guarded.  In binary64, with
    a hard limit of [+0.0], every throttled call whose risk index is
    negative gets an infinite duty scale. *)
Theorem zero_hard_limit_gives_infinite_duty :
  forall (g : BeePolytopeGuard float) (s : State5D float) (voc : float)
         (rg : RegionClass),
    rBeeHardLimit_ g = 0%float ->
    classifyRegion g s = Some rg ->
    rg <> FORBIDDEN ->
    (r_bee (computeHazard g s voc) <? 0)%float = true ->
    rg = RETREAT_ONLY
    \/ (rBeeSoftLimit_ g <? r_bee (computeHazard g s voc))%float = true ->
    computeActuation g s voc
    = Some {| region := rg; duty_scale := infinity;
              allow_foraging := false |}.
Proof.
  intros g s voc rg Hhard Hrg Hnf Hneg Hthr.
  assert (Hlt : d_leb (rBeeHardLimit_ g)
                      (r_bee (computeHazard g s voc)) = false).
  { rewrite Hhard. cbn [d_leb F64_Double].
    rewrite leb_spec. unfold SFleb.
    replace (Prim2SF 0) with (S754_zero false) by reflexivity.
    destruct (ltb_zero_negative _ Hneg) as [-> | (m & e & ->)];
      reflexivity. }
  rewrite (computeActuation_throttled g s voc rg Hrg Hnf Hlt Hthr).
  cbn [d_zero d_one d_half d_sub d_div d_mul F64_Double].
  rewrite Hhard.
  rewrite (throttle_scale_at_zero_hard_limit _ Hneg). reflexivity.
Qed.

Lemma zero_hard_limit_gives_infinite_duty_witness :
  computeActuation Samples.zero_hard_guard_f64 Samples.drift_state_f64
                   0%float
  = Some {| region := RETREAT_ONLY; duty_scale := infinity;
            allow_foraging := false |}.
Proof.
  apply zero_hard_limit_gives_infinite_duty.
  - reflexivity.
  - reflexivity.
  - discriminate.
  - reflexivity.
  - left. reflexivity.
Defined.

(** ** Where binary64 departs from the exact-arithmetic statements *)

(** Overflow under a zero weight.  With the VOC weight zero and a VOC LC50
    of 0.5, a VOC reading of DBL_MAX makes the ratio infinite and the
    weighted term [0 * inf] NaN.  A state that is hard-stopped at VOC 0
    (risk 1.25) then gets full operation, and a state with foraging allowed
    and a PM2.5-equivalent of 5 has its viability flag cleared. *)
Example overflow_replay_binary64 :
  computeActuation Samples.overflow_guard_f64 Samples.heavy_state_f64
                   0%float
  = Some {| region := FORAGE_SAFE; duty_scale := 0%float;
            allow_foraging := false |}
  /\ is_nan (r_bee (computeHazard Samples.overflow_guard_f64
                                  Samples.heavy_state_f64
                                  Samples.dbl_max)) = true
  /\ computeActuation Samples.overflow_guard_f64 Samples.heavy_state_f64
                      Samples.dbl_max
     = Some {| region := FORAGE_SAFE; duty_scale := 1%float;
               allow_foraging := true |}
  /\ computeActuation Samples.overflow_guard_f64 Samples.light_state_f64
                      Samples.dbl_max
     = Some {| region := FORAGE_SAFE; duty_scale := 1%float;
               allow_foraging := true |}
  /\ pm25_eq (computeHazard Samples.overflow_guard_f64
                            Samples.light_state_f64 Samples.dbl_max)
     = 5%float
  /\ within_viability (computeHazard Samples.overflow_guard_f64
                                     Samples.light_state_f64
                                     Samples.dbl_max) = false.
Proof. repeat split; vm_compute; reflexivity. Qed.

(** Rounding.  With weights 3/8, 3/8, 1/8, 1/8 and all four ratios equal to
    the double nearest 1.3, the risk index is one ulp above that double. *)
Example rounding_replay_binary64 :
  r_pm Samples.rounding_guard_f64 Samples.rounding_state_f64
  = Samples.near_1_3
  /\ r_nox Samples.rounding_guard_f64 Samples.rounding_state_f64
     = Samples.near_1_3
  /\ r_o3 Samples.rounding_guard_f64 Samples.rounding_state_f64
     = Samples.near_1_3
  /\ r_voc Samples.rounding_guard_f64 Samples.near_1_3 = Samples.near_1_3
  /\ (Samples.near_1_3
      <? r_bee (computeHazard Samples.rounding_guard_f64
                              Samples.rounding_state_f64
                              Samples.near_1_3))%float = true.
Proof. repeat split; vm_compute; reflexivity. Qed.
